(** * stock-trackr: quote cache, provider fallback, price monitor,
      technical indicators and tracked-symbol persistence

    A shallow embedding of [stock_data.py], [main.py], [ai_advisor.py] and
    [persistence.py], followed by the properties of these components.

    Conventions of the embedding.
    - A Python [float] is a value of [float] below: an exact rational, the
      two infinities, or NaN.  Arithmetic on finite values is exact (binary64
      rounding and the sign of zero are not represented); the rules for
      infinities, NaN and zero divisors are the IEEE ones.  Python's own [/]
      raises [ZeroDivisionError] on a zero divisor ([py_truediv]); the
      element-wise division of pandas and numpy does not ([fdiv]).
    - A [datetime] is a number of microseconds on the local clock; the
      difference of two of them is a [timedelta].
    - [try: ... except Exception] is written with [result] and [try_except].
    - A Python [dict] with string keys is a [gmap string _].
    - A Python [str] is a [string]; [str.upper], which follows the case
      mappings of Unicode, is a parameter of the functions that call it. *)

From Stdlib Require Import ZArith QArith Qabs String Ascii List Lia Lqa.
From stdpp Require Import base option gmap list strings.

Local Open Scope Z_scope.

(** ** Numbers *)

Module Float.

Inductive float : Type :=
| Fin (q : Q)
| PInf
| NInf
| NaN.

Definition of_Q (q : Q) : float := Fin (Qred q).
Definition of_Z (z : Z) : float := Fin (inject_Z z).
Definition of_nat (n : nat) : float := of_Z (Z.of_nat n).

Definition zero : float := of_Z 0.

Definition is_nan (x : float) : bool :=
  match x with NaN => true | _ => false end.

Definition is_finite (x : float) : bool :=
  match x with Fin _ => true | _ => false end.

Definition Qeqb (a b : Q) : bool := Qeq_bool a b.
Definition Qltb (a b : Q) : bool := negb (Qle_bool b a).
Definition Qleb (a b : Q) : bool := Qle_bool a b.

Definition fneg (x : float) : float :=
  match x with
  | Fin a => Fin (Qred (- a))
  | PInf => NInf
  | NInf => PInf
  | NaN => NaN
  end.

Definition fabs (x : float) : float :=
  match x with
  | Fin a => Fin (Qred (Qabs a))
  | PInf | NInf => PInf
  | NaN => NaN
  end.

Definition fadd (x y : float) : float :=
  match x, y with
  | NaN, _ | _, NaN => NaN
  | Fin a, Fin b => Fin (Qred (a + b))
  | PInf, NInf | NInf, PInf => NaN
  | PInf, _ | _, PInf => PInf
  | NInf, _ | _, NInf => NInf
  end.

Definition fsub (x y : float) : float := fadd x (fneg y).

Definition fmul (x y : float) : float :=
  match x, y with
  | NaN, _ | _, NaN => NaN
  | Fin a, Fin b => Fin (Qred (a * b))
  | Fin a, PInf | PInf, Fin a =>
      match (0 ?= a)%Q with Lt => PInf | Eq => NaN | Gt => NInf end
  | Fin a, NInf | NInf, Fin a =>
      match (0 ?= a)%Q with Lt => NInf | Eq => NaN | Gt => PInf end
  | PInf, PInf | NInf, NInf => PInf
  | PInf, NInf | NInf, PInf => NInf
  end.

(** Division as numpy and pandas do it: a zero divisor gives an infinity
    (NaN for [0/0]) and never raises. *)
Definition fdiv (x y : float) : float :=
  match x, y with
  | NaN, _ | _, NaN => NaN
  | Fin a, Fin b =>
      if Qeqb b 0
      then match (0 ?= a)%Q with Lt => PInf | Eq => NaN | Gt => NInf end
      else Fin (Qred (a / b))
  | Fin _, (PInf | NInf) => Fin 0
  | (PInf | NInf), (PInf | NInf) => NaN
  | PInf, Fin b => if Qltb b 0 then NInf else PInf
  | NInf, Fin b => if Qltb b 0 then PInf else NInf
  end.

(** Comparisons; every comparison with NaN is false, except [!=]. *)
Definition feqb (x y : float) : bool :=
  match x, y with
  | Fin a, Fin b => Qeqb a b
  | PInf, PInf | NInf, NInf => true
  | _, _ => false
  end.

Definition fneb (x y : float) : bool := negb (feqb x y).

Definition fltb (x y : float) : bool :=
  match x, y with
  | NaN, _ | _, NaN => false
  | Fin a, Fin b => Qltb a b
  | NInf, NInf | PInf, _ => false
  | NInf, _ | _, PInf => true
  | Fin _, NInf => false
  end.

Definition fgtb (x y : float) : bool := fltb y x.

Definition fleb (x y : float) : bool :=
  match x, y with
  | NaN, _ | _, NaN => false
  | Fin a, Fin b => Qleb a b
  | NInf, _ | _, PInf => true
  | PInf, _ | _, NInf => false
  end.

Definition fgeb (x y : float) : bool := fleb y x.

Definition fsum (l : list float) : float := fold_left fadd l zero.

Definition fmax (x y : float) : float := if fltb x y then y else x.
Definition fmin (x y : float) : float := if fltb y x then y else x.

End Float.
Export Float.

(** ** Exceptions *)

Inductive exn : Type :=
| ZeroDivisionError
| IndexError
| KeyError
| ValueError
| UpstreamError.

Inductive result (A : Type) : Type :=
| Ok (a : A)
| Raise (e : exn).
Arguments Ok {A} a.
Arguments Raise {A} e.

#[global] Instance result_ret : MRet result := fun A a => Ok a.
#[global] Instance result_bind : MBind result := fun A B k r =>
  match r with
  | Ok a => k a
  | Raise e => Raise e
  end.

(** [try: body / except Exception: return dflt]. *)
Definition try_except {A} (body : result A) (dflt : A) : A :=
  match body with
  | Ok a => a
  | Raise _ => dflt
  end.

(** Python's true division on floats. *)
Definition py_truediv (x y : float) : result float :=
  if feqb y zero then Raise ZeroDivisionError else Ok (fdiv x y).

Definition or_raise {A} (o : option A) (e : exn) : result A :=
  match o with
  | Some a => Ok a
  | None => Raise e
  end.

(** [xs[-1]] and [xs.iloc[-1]]. *)
Definition iloc_last {A} (xs : list A) : result A :=
  or_raise (last xs) IndexError.

(** [xs.iloc[-k]] for [k >= 1]. *)
Definition iloc_neg {A} (k : nat) (xs : list A) : result A :=
  if (length xs <? k)%nat then Raise IndexError
  else or_raise (xs !! (length xs - k)%nat) IndexError.

(** ** [stock_data.py] *)

Module StockDataManager.

(** One row of the daily history returned by the primary provider. *)
Record bar : Type := {
  Open : float;
  High : float;
  Low : float;
  Close : float;
  Volume : Z
}.

(** The dictionary built by [_get_yfinance_data] and
    [_get_alpha_vantage_data]. *)
Record quote : Type := {
  symbol : string;
  current_price : float;
  change : float;
  change_percent : float;
  open : float;
  high : float;
  low : float;
  volume : Z;
  previous_close : float;
  timestamp : Z;
  source : string
}.

(** What [yf.Ticker(symbol)], [ticker.info] and
    [ticker.history(period="2d")] do: one of them raises, or the history
    comes back (possibly empty). *)
Inductive yf_response : Type :=
| YfError
| YfHistory (hist : list bar).

(** The ["Global Quote"] object of the fallback provider.  A field is
    [None] when its key is missing or its text is not a number, which is
    when [float(quote[k])] and [int(quote[k])] raise. *)
Record global_quote : Type := {
  gq_price : option float;
  gq_previous_close : option float;
  gq_change : option float;
  gq_change_percent : option float;
  gq_open : option float;
  gq_high : option float;
  gq_low : option float;
  gq_volume : option Z
}.

(** What [requests.get] and [response.json()] do: one of them raises, or a
    body comes back with a status code and, possibly, a ["Global Quote"]. *)
Inductive av_response : Type :=
| AvError
| AvReply (status_code : Z) (body : option global_quote).

Record upstream : Type := {
  yfinance : string -> yf_response;
  alpha_vantage : string -> av_response
}.

(** Calls that reach a provider, in the order they are made. *)
Inductive call : Type :=
| Primary (sym : string)
| Fallback (sym : string).

Record cache_entry : Type := {
  ce_data : quote;
  ce_timestamp : Z
}.

Record manager : Type := {
  cache : gmap string cache_entry;
  cache_duration : Z
}.

Definition init : manager := {| cache := ∅; cache_duration := 60 |}.

(** [timedelta.seconds]: the seconds field of the normalised
    (days, seconds, microseconds) triple, between 0 and 86399. *)
Definition timedelta_seconds (delta : Z) : Z := (delta / 1000000) mod 86400.

Definition _is_cache_valid (self : manager) (now : Z) (key : string) : bool :=
  match cache self !! key with
  | None => false
  | Some e => timedelta_seconds (now - ce_timestamp e) <? cache_duration self
  end.

Definition _update_cache (self : manager) (now : Z) (key : string) (d : quote)
  : manager :=
  {| cache := <[key := {| ce_data := d; ce_timestamp := now |}]> (cache self);
     cache_duration := cache_duration self |}.

Definition _get_yfinance_data (up : upstream) (now : Z) (sym : string)
  : option quote :=
  try_except
    (hist ← match yfinance up sym with
            | YfError => Raise UpstreamError
            | YfHistory h => Ok h
            end;
     if bool_decide (hist = []) then Ok None
     else
       current_data ← iloc_last hist;
       previous_data ← (if (1 <? length hist)%nat then iloc_neg 2 hist
                        else Ok current_data);
       let current_price := Close current_data in
       let previous_close := Close previous_data in
       let change := fsub current_price previous_close in
       change_percent ← (if fneb previous_close zero
                         then r ← py_truediv change previous_close;
                              Ok (fmul r (of_Z 100))
                         else Ok zero);
       Ok (Some {| symbol := sym;
                   current_price := current_price;
                   change := change;
                   change_percent := change_percent;
                   open := Open current_data;
                   high := High current_data;
                   low := Low current_data;
                   volume := Volume current_data;
                   previous_close := previous_close;
                   timestamp := now;
                   source := "yfinance" |}))
    None.

Definition _get_alpha_vantage_data (up : upstream) (now : Z) (sym : string)
  : option quote :=
  try_except
    (match alpha_vantage up sym with
     | AvError => Raise UpstreamError
     | AvReply status_code body =>
         if negb (status_code =? 200) then Ok None
         else match body with
              | None => Ok None
              | Some q =>
                  current_price ← or_raise (gq_price q) ValueError;
                  previous_close ← or_raise (gq_previous_close q) ValueError;
                  change ← or_raise (gq_change q) ValueError;
                  change_percent ← or_raise (gq_change_percent q) ValueError;
                  open ← or_raise (gq_open q) ValueError;
                  high ← or_raise (gq_high q) ValueError;
                  low ← or_raise (gq_low q) ValueError;
                  volume ← or_raise (gq_volume q) ValueError;
                  Ok (Some {| symbol := sym;
                              current_price := current_price;
                              change := change;
                              change_percent := change_percent;
                              open := open;
                              high := high;
                              low := low;
                              volume := volume;
                              previous_close := previous_close;
                              timestamp := now;
                              source := "alpha_vantage" |})
              end
     end)
    None.

Definition cache_key (sym : string) : string := sym +:+ "_current".

(** [get_stock_data]: the answer, the manager afterwards, and the provider
    calls made on the way.  [now] is what the clock shows during the call;
    the time that a provider takes to answer is not represented. *)
Definition get_stock_data (up : upstream) (now : Z) (sym : string)
    (self : manager) : option quote * manager * list call :=
  if _is_cache_valid self now (cache_key sym)
  then (try_except (e ← or_raise (cache self !! cache_key sym) KeyError;
                    Ok (Some (ce_data e))) None,
        self, [])
  else
    match _get_yfinance_data up now sym with
    | Some d => (Some d, _update_cache self now (cache_key sym) d,
                 [Primary sym])
    | None =>
        match _get_alpha_vantage_data up now sym with
        | Some d => (Some d, _update_cache self now (cache_key sym) d,
                     [Primary sym; Fallback sym])
        | None => (None, self, [Primary sym; Fallback sym])
        end
    end.

End StockDataManager.

(** ** [persistence.py] *)

Module PersistenceManager.

(** [x in xs] on a list of strings. *)
Definition py_in (x : string) (xs : list string) : bool :=
  bool_decide (x ∈ xs).

(** [xs.remove(x)]: drops the first occurrence, [ValueError] when there is
    none. *)
Fixpoint list_remove (x : string) (xs : list string) : result (list string) :=
  match xs with
  | [] => Raise ValueError
  | y :: ys => if bool_decide (x = y) then Ok ys
               else ys' ← list_remove x ys; Ok (y :: ys')
  end.

(** The JSON document of [data/tracked_stocks.json]; ["stocks"] may be
    missing from a file that was not written by [save_tracked_stocks]. *)
Record tracked_doc : Type := {
  stocks : option (list string);
  last_updated : Z;
  count : nat
}.

Inductive file : Type :=
| Missing
| Unreadable
| Document (d : tracked_doc).

(** The file, and whether [open(file_path, 'w')] succeeds. *)
Record disk : Type := {
  tracked_stocks_file : file;
  writable : bool
}.

Definition save_tracked_stocks (now : Z) (stocks : list string) (fs : disk)
  : bool * disk :=
  if writable fs
  then (true,
        {| tracked_stocks_file :=
             Document {| stocks := Some stocks;
                         last_updated := now;
                         count := length stocks |};
           writable := writable fs |})
  else (false, fs).

Definition load_tracked_stocks (now : Z) (fs : disk) : list string * disk :=
  match tracked_stocks_file fs with
  | Missing => ([], snd (save_tracked_stocks now [] fs))
  | Unreadable => ([], fs)
  | Document d => (default [] (stocks d), fs)
  end.

Section Upper.

(** [str.upper] follows the case mappings of Unicode, which are not
    modelled: the functions that call it take it as a parameter, and what
    is proved of them holds for every such function. *)
Variable upper : string -> string.

Definition add_tracked_stock (now : Z) (symbol : string) (fs : disk)
  : bool * disk :=
  let '(stocks, fs) := load_tracked_stocks now fs in
  if negb (py_in symbol stocks)
  then save_tracked_stocks now (stocks ++ [upper symbol]) fs
  else (true, fs).

Definition remove_tracked_stock (now : Z) (symbol : string) (fs : disk)
  : bool * disk :=
  let '(stocks, fs) := load_tracked_stocks now fs in
  if py_in (upper symbol) stocks
  then match list_remove (upper symbol) stocks with
       | Ok stocks' => save_tracked_stocks now stocks' fs
       | Raise _ => (false, fs)
       end
  else (true, fs).

End Upper.

End PersistenceManager.

(** ** [ai_advisor.py] *)

Module AIAdvisor.

Import StockDataManager.

(** A value of the indicator dictionary. *)
Inductive pyval : Type :=
| VFloat (f : float)
| VStr (s : string).

(** *** The pandas operations that the advisor uses on a column *)

(** [s.diff()]. *)
Definition diff (xs : list float) : list float :=
  match xs with
  | [] => []
  | _ :: tl => NaN :: zip_with (fun prev cur => fsub cur prev) xs tl
  end.

(** [s.pct_change()]. *)
Definition pct_change (xs : list float) : list float :=
  match xs with
  | [] => []
  | _ :: tl =>
      NaN :: zip_with (fun prev cur => fsub (fdiv cur prev) (of_Z 1)) xs tl
  end.

(** [s.where(cond, other)]. *)
Definition where_ (cond : float -> bool) (other : float) (xs : list float)
  : list float :=
  (fun x => if cond x then x else other) <$> xs.

(** [s.rolling(window=w).agg()]: NaN until [w] rows are there, then the
    aggregate of the last [w] rows. *)
Definition rolling (w : nat) (agg : list float -> float) (xs : list float)
  : list float :=
  (fun i => if (i + 1 <? w)%nat then NaN
            else agg (take w (drop (i + 1 - w) xs)))
    <$> seq 0 (length xs).

(** The aggregates give NaN when the window holds a NaN (fewer than
    [window] observations). *)
Definition mean_agg (l : list float) : float :=
  if existsb is_nan l then NaN else fdiv (fsum l) (of_nat (length l)).

Definition max_agg (l : list float) : float :=
  if existsb is_nan l then NaN
  else match l with
       | [] => NaN
       | x :: l' => fold_left fmax l' x
       end.

Definition min_agg (l : list float) : float :=
  if existsb is_nan l then NaN
  else match l with
       | [] => NaN
       | x :: l' => fold_left fmin l' x
       end.

Section Indicators.

(** The square root of numpy; the rational model does not compute it. *)
Variable sqrt : float -> float.

(** Sample standard deviation (one degree of freedom removed). *)
Definition std_agg (l : list float) : float :=
  if existsb is_nan l then NaN
  else
    let m := fdiv (fsum l) (of_nat (length l)) in
    let ss := fsum ((fun x => fmul (fsub x m) (fsub x m)) <$> l) in
    sqrt (fdiv ss (of_nat (length l - 1))).

Definition _calculate_technical_indicators (data : list bar)
  : gmap string pyval :=
  try_except
    (let close := Close <$> data in
     let indicators : gmap string pyval := ∅ in
     (* Moving averages *)
     indicators ←
       (if (20 <=? length data)%nat then
          ma20 ← iloc_last (rolling 20 mean_agg close);
          let indicators := <["ma20" := VFloat ma20]> indicators in
          last_close ← iloc_last close;
          Ok (<["ma20_trend" :=
                  VStr (if fgtb last_close ma20 then "bullish" else "bearish")]>
                indicators)
        else Ok indicators);
     indicators ←
       (if (10 <=? length data)%nat then
          ma10 ← iloc_last (rolling 10 mean_agg close);
          let indicators := <["ma10" := VFloat ma10]> indicators in
          last_close ← iloc_last close;
          Ok (<["ma10_trend" :=
                  VStr (if fgtb last_close ma10 then "bullish" else "bearish")]>
                indicators)
        else Ok indicators);
     indicators ←
       (if (5 <=? length data)%nat then
          ma5 ← iloc_last (rolling 5 mean_agg close);
          let indicators := <["ma5" := VFloat ma5]> indicators in
          last_close ← iloc_last close;
          Ok (<["ma5_trend" :=
                  VStr (if fgtb last_close ma5 then "bullish" else "bearish")]>
                indicators)
        else Ok indicators);
     (* RSI calculation *)
     indicators ←
       (if (14 <=? length data)%nat then
          let delta := diff close in
          let gain :=
            rolling 14 mean_agg (where_ (fun d => fgtb d zero) zero delta) in
          let loss :=
            rolling 14 mean_agg
              (fneg <$> where_ (fun d => fltb d zero) zero delta) in
          let rs := zip_with fdiv gain loss in
          let rsi :=
            (fun r => fsub (of_Z 100) (fdiv (of_Z 100) (fadd (of_Z 1) r)))
              <$> rs in
          rsi_value ← (if bool_decide (rsi = []) then Ok (of_Z 50)
                        else iloc_last rsi);
          let indicators := <["rsi" := VFloat rsi_value]> indicators in
          Ok (if fgtb rsi_value (of_Z 70)
              then <["rsi_signal" := VStr "overbought"]> indicators
              else if fltb rsi_value (of_Z 30)
                   then <["rsi_signal" := VStr "oversold"]> indicators
                   else <["rsi_signal" := VStr "neutral"]> indicators)
        else Ok indicators);
     (* Volume analysis *)
     let volume := (fun b => of_Z (Volume b)) <$> data in
     avg_volume ← iloc_last (rolling 10 mean_agg volume);
     current_volume ← iloc_last volume;
     let volume_ratio := fdiv current_volume avg_volume in
     let indicators := <["volume_ratio" := VFloat volume_ratio]> indicators in
     let indicators :=
       <["volume_signal" :=
           VStr (if fgtb volume_ratio (of_Q (3 # 2)) then "high" else "normal")]>
         indicators in
     (* Price momentum *)
     indicators ←
       (if (5 <=? length data)%nat then
          price_5d_ago ← iloc_neg 5 close;
          current_price ← iloc_last close;
          Ok (<["momentum_5d" :=
                  VFloat (fmul (fdiv (fsub current_price price_5d_ago)
                                     price_5d_ago)
                               (of_Z 100))]>
                indicators)
        else Ok indicators);
     (* Volatility *)
     volatility ← iloc_last (rolling 10 std_agg (pct_change close));
     let indicators :=
       <["volatility" := VFloat (fmul volatility (of_Z 100))]> indicators in
     (* Support and resistance levels *)
     high_20d ← iloc_last (rolling 20 max_agg (High <$> data));
     low_20d ← iloc_last (rolling 20 min_agg (Low <$> data));
     let indicators := <["resistance_level" := VFloat high_20d]> indicators in
     let indicators := <["support_level" := VFloat low_20d]> indicators in
     Ok indicators)
    ∅.

End Indicators.

End AIAdvisor.

(** ** [main.py]: the price monitor *)

Module StockBot.

Import StockDataManager.

Record bot : Type := {
  tracked_stocks : list string;
  last_prices : gmap string float;
  stock_manager : manager
}.

(** What one tick meets outside the process: the clock, the two
    providers, and whether [send_price_alert] returns for a symbol ([true])
    or raises (a delivery error other than [discord.Forbidden]). *)
Record env : Type := {
  now : Z;
  providers : upstream;
  delivers : string -> bool
}.

(** What a tick does that is visible from outside. *)
Inductive event : Type :=
| Fetch (c : call)
| Alert (sym : string) (stock_data : quote) (change_percent : float).

Definition send_price_alert (e : env) (sym : string) (stock_data : quote)
    (change_percent : float) : result unit * list event :=
  (if delivers e sym then Ok tt else Raise UpstreamError,
   [Alert sym stock_data change_percent]).

Definition set_stock_manager (self : bot) (m : manager) : bot :=
  {| tracked_stocks := tracked_stocks self;
     last_prices := last_prices self;
     stock_manager := m |}.

Definition set_last_price (self : bot) (sym : string) (p : float) : bot :=
  {| tracked_stocks := tracked_stocks self;
     last_prices := <[sym := p]> (last_prices self);
     stock_manager := stock_manager self |}.

(** The body of the [for symbol in self.tracked_stocks] loop.  [Ok tt] is
    the normal end of the iteration (also by [continue]); [Raise] leaves
    the loop. *)
Definition monitor_symbol (e : env) (sym : string) (self : bot)
  : result unit * bot * list event :=
  let '(current_data, m, calls) :=
    get_stock_data (providers e) (now e) sym (stock_manager self) in
  let self := set_stock_manager self m in
  let fetched := Fetch <$> calls in
  match current_data with
  | None => (Ok tt, self, fetched)
  | Some current_data =>
      let current_price := current_price current_data in
      let last_price := default current_price (last_prices self !! sym) in
      let '(r, alerts) :=
        if fneb last_price zero then
          match py_truediv (fsub current_price last_price) last_price with
          | Raise x => (Raise x, [])
          | Ok d =>
              let change_percent := fmul d (of_Z 100) in
              if fgeb (fabs change_percent) (of_Z 2)
              then send_price_alert e sym current_data change_percent
              else (Ok tt, [])
          end
        else (Ok tt, []) in
      match r with
      | Raise x => (Raise x, self, fetched ++ alerts)
      | Ok _ => (Ok tt, set_last_price self sym current_price,
                 fetched ++ alerts)
      end
  end.

Fixpoint monitor_loop (e : env) (symbols : list string) (self : bot)
  : result unit * bot * list event :=
  match symbols with
  | [] => (Ok tt, self, [])
  | sym :: rest =>
      match monitor_symbol e sym self with
      | (Raise x, self, evs) => (Raise x, self, evs)
      | (Ok _, self, evs) =>
          let '(r, self, evs') := monitor_loop e rest self in
          (r, self, evs ++ evs')
      end
  end.

(** One firing of the [tasks.loop]: the [try] is around the whole loop, an
    exception is logged and ends the tick. *)
Definition price_monitor (e : env) (self : bot) : bot * list event :=
  if bool_decide (tracked_stocks self = []) then (self, [])
  else
    let '(_, self', evs) := monitor_loop e (tracked_stocks self) self in
    (self', evs).

End StockBot.

(** ** Vocabulary of the properties *)

Module Props.

Import StockDataManager.

(** A fetch round starts with a call to the primary provider, so the number
    of rounds is the number of such calls. *)
Definition is_primary (c : call) : bool :=
  match c with Primary _ => true | Fallback _ => false end.

Definition fetch_count (calls : list call) : nat :=
  length (filter (fun c => is_primary c = true) calls).

(** The quote invariant: [change] is the difference of the two prices and
    [change_percent] is that difference relative to the previous close,
    times 100, or zero when the previous close is zero. *)
Definition quote_consistent (q : quote) : Prop :=
  change q = fsub (current_price q) (previous_close q)
  /\ change_percent q
     = (if fneb (previous_close q) zero
        then fmul (fdiv (fsub (current_price q) (previous_close q))
                        (previous_close q))
                  (of_Z 100)
        else zero).

(** Every cached quote of the primary provider satisfies the invariant. *)
Definition cache_consistent (self : manager) : Prop :=
  forall (k : string) (e : cache_entry),
    cache self !! k = Some e ->
    source (ce_data e) = "yfinance" -> quote_consistent (ce_data e).

(** [((current_price - last_price) / last_price) * 100] as Python
    evaluates it: undefined ([ZeroDivisionError]) for a zero baseline. *)
Definition percent_change (current_price last_price : float) : result float :=
  r ← py_truediv (fsub current_price last_price) last_price;
  Ok (fmul r (of_Z 100)).

(** A strictly increasing series, by Python's [<] on neighbours. *)
Fixpoint increasing (xs : list float) : bool :=
  match xs with
  | a :: (b :: _) as tl => fltb a b && increasing tl
  | _ => true
  end.

(** [x > 0]. *)
Definition pos (x : float) : Prop := fgtb x zero = true.

(** One second and one day, in clock units. *)
Definition second : Z := 1000000.
Definition day : Z := 86400 * second.

End Props.

(** ** Fixtures *)

Module Fixtures.

Import StockDataManager.

Definition flat_bar (c : Z) (v : Z) : bar :=
  {| Open := of_Z c; High := of_Z c; Low := of_Z c; Close := of_Z c;
     Volume := v |}.

(** A primary provider that knows every symbol, with a two-day history
    closing at 100 and then at [c]; the fallback is down. *)
Definition primary_at (c : Z) : upstream :=
  {| yfinance := fun _ => YfHistory [flat_bar 100 1000; flat_bar c 1000];
     alpha_vantage := fun _ => AvError |}.

(** Both providers down. *)
Definition all_down : upstream :=
  {| yfinance := fun _ => YfError; alpha_vantage := fun _ => AvError |}.

(** The primary provider is down and the fallback answers with a price of
    10 against a previous close of 5, while its change fields say 0. *)
Definition skewed_fallback : upstream :=
  {| yfinance := fun _ => YfError;
     alpha_vantage := fun _ =>
       AvReply 200
         (Some {| gq_price := Some (of_Z 10);
                  gq_previous_close := Some (of_Z 5);
                  gq_change := Some (of_Z 0);
                  gq_change_percent := Some (of_Z 0);
                  gq_open := Some (of_Z 10);
                  gq_high := Some (of_Z 10);
                  gq_low := Some (of_Z 10);
                  gq_volume := Some 1000 |}) |}.

Definition old_quote : quote :=
  {| symbol := "AAPL"; current_price := of_Z 100; change := of_Z 0;
     change_percent := of_Z 0; open := of_Z 100; high := of_Z 100;
     low := of_Z 100; volume := 1000; previous_close := of_Z 100;
     timestamp := 0; source := "yfinance" |}.

(** The quote of the primary provider for a close of 103 after 100. *)
Definition fresh_quote : quote :=
  default old_quote (_get_yfinance_data (primary_at 103) 0 "AAPL").

(** A manager whose only entry was fetched at time 0. *)
Definition warm : manager :=
  _update_cache init 0 (cache_key "AAPL") old_quote.

(** Two tracked symbols with a baseline of 100 each; both quotes come back
    at 103, a move of 3 percent, and the delivery of the alert raises. *)
Definition two_tracked : StockBot.bot :=
  {| StockBot.tracked_stocks := ["AAPL"; "MSFT"];
     StockBot.last_prices := <["MSFT" := of_Z 100]> {["AAPL" := of_Z 100]};
     StockBot.stock_manager := init |}.

(** One tracked symbol whose stored baseline is zero. *)
Definition zero_baseline : StockBot.bot :=
  {| StockBot.tracked_stocks := ["AAPL"];
     StockBot.last_prices := {["AAPL" := of_Z 0]};
     StockBot.stock_manager := init |}.

Definition delivery_fails : StockBot.env :=
  {| StockBot.now := 0;
     StockBot.providers := primary_at 103;
     StockBot.delivers := fun _ => false |}.

(** The same tick with a working delivery, and with a close of 101. *)
Definition delivery_works (c : Z) : StockBot.env :=
  {| StockBot.now := 0;
     StockBot.providers := primary_at c;
     StockBot.delivers := fun _ => true |}.

(** The first symbol is unknown to both providers. *)
Definition first_unknown : StockBot.env :=
  {| StockBot.now := 0;
     StockBot.providers :=
       {| yfinance := fun s => if bool_decide (s = "AAPL") then YfError
                               else YfHistory [flat_bar 100 1000;
                                               flat_bar 103 1000];
          alpha_vantage := fun _ => AvError |};
     StockBot.delivers := fun _ => true |}.

(** [n] daily bars closing at 100, 101, 102, ... *)
Definition rising (n : nat) : list bar :=
  (fun i => {| Open := of_Z (100 + Z.of_nat i);
               High := of_Z (101 + Z.of_nat i);
               Low := of_Z (99 + Z.of_nat i);
               Close := of_Z (100 + Z.of_nat i);
               Volume := 1000 |}) <$> seq 0 n.

(** A stand-in for the square root, for running the indicators. *)
Definition no_sqrt (x : float) : float := x.

(** [str.upper] on a string of ASCII characters, which is all that the
    fixtures hold: the letters a to z go to A to Z and every other
    character stays. *)
Definition upper_ascii (c : ascii) : ascii :=
  let n := nat_of_ascii c in
  if ((97 <=? n) && (n <=? 122))%nat then ascii_of_nat (n - 32) else c.

Fixpoint ascii_upper (s : string) : string :=
  match s with
  | EmptyString => EmptyString
  | String c s' => String (upper_ascii c) (ascii_upper s')
  end.

(** The tracked-stocks file holding the given list. *)
Definition disk_with (l : list string) : PersistenceManager.disk :=
  {| PersistenceManager.tracked_stocks_file :=
       PersistenceManager.Document
         {| PersistenceManager.stocks := Some l;
            PersistenceManager.last_updated := 0;
            PersistenceManager.count := length l |};
     PersistenceManager.writable := true |}.

End Fixtures.

(** ** [stock_data.py]: historical data *)

Module History.

Import StockDataManager.

(** [ticker.history(period=period)] for a symbol and a period. *)
Record history_upstream : Type := {
  history : string -> string -> yf_response
}.

(** The entries of [self.cache] that hold a frame.  They live in the same
    dictionary as the quotes, under keys [<symbol>_hist_<period>]. *)
Record hist_entry : Type := {
  he_data : list bar;
  he_timestamp : Z
}.

Record hist_manager : Type := {
  hist_cache : gmap string hist_entry;
  hist_cache_duration : Z
}.

Definition hist_key (sym period : string) : string :=
  sym +:+ "_hist_" +:+ period.

Definition hist_is_cache_valid (self : hist_manager) (now : Z) (key : string)
  : bool :=
  match hist_cache self !! key with
  | None => false
  | Some e =>
      timedelta_seconds (now - he_timestamp e) <? hist_cache_duration self
  end.

Definition hist_update_cache (self : hist_manager) (now : Z) (key : string)
    (d : list bar) : hist_manager :=
  {| hist_cache :=
       <[key := {| he_data := d; he_timestamp := now |}]> (hist_cache self);
     hist_cache_duration := hist_cache_duration self |}.

(** [get_historical_data]: the frame or [None], the manager afterwards, and
    how many times the provider was asked. *)
Definition get_historical_data (up : history_upstream) (now : Z)
    (sym period : string) (self : hist_manager)
  : option (list bar) * hist_manager * nat :=
  if hist_is_cache_valid self now (hist_key sym period)
  then (try_except (e ← or_raise (hist_cache self !! hist_key sym period)
                                 KeyError;
                    Ok (Some (he_data e))) None,
        self, 0%nat)
  else
    match history up sym period with
    | YfError => (None, self, 1%nat)
    | YfHistory hist =>
        if negb (bool_decide (hist = []))
        then (Some hist, hist_update_cache self now (hist_key sym period) hist,
              1%nat)
        else (None, self, 1%nat)
    end.

End History.

(** ** [persistence.py]: user preferences and file information *)

Module Preferences.

Import PersistenceManager.

(** A value of the preferences dictionary; ['last_updated'] holds a time. *)
Inductive prefval : Type :=
| PFloat (f : float)
| PStr (s : string)
| PBool (b : bool)
| PTime (t : Z).

Inductive prefs_file : Type :=
| PrefsMissing
| PrefsUnreadable
| PrefsDocument (d : gmap string prefval).

Record prefs_disk : Type := {
  user_preferences_file : prefs_file;
  prefs_writable : bool
}.

(** [save_user_preferences]: the dictionary is stamped before the file is
    opened, and it is the caller's own object, so the stamp is visible to
    the caller whether or not the write succeeds.  The third component is
    that dictionary after the call. *)
Definition save_user_preferences (now : Z) (preferences : gmap string prefval)
    (fs : prefs_disk) : bool * prefs_disk * gmap string prefval :=
  let preferences := <["last_updated" := PTime now]> preferences in
  if prefs_writable fs
  then (true,
        {| user_preferences_file := PrefsDocument preferences;
           prefs_writable := prefs_writable fs |},
        preferences)
  else (false, fs, preferences).

Definition default_prefs : gmap string prefval :=
  <["notifications_enabled" := PBool true]>
    (<["preferred_timeframe" := PStr "1mo"]>
       (<["chart_style" := PStr "dark"]>
          (<["alert_threshold" := PFloat (of_Z 2)]> ∅))).

Definition load_user_preferences (now : Z) (fs : prefs_disk)
  : gmap string prefval * prefs_disk :=
  match user_preferences_file fs with
  | PrefsMissing =>
      let '(_, fs, default_prefs) := save_user_preferences now default_prefs fs in
      (default_prefs, fs)
  | PrefsUnreadable => (∅, fs)
  | PrefsDocument d => (d, fs)
  end.

(** What [get_tracked_stocks_info] returns: the document as stored, the
    default for a missing file, or the default with an error text. *)
Inductive stocks_info : Type :=
| InfoDocument (d : tracked_doc)
| InfoDefault
| InfoError.

Definition get_tracked_stocks_info (fs : disk) : stocks_info :=
  match tracked_stocks_file fs with
  | Missing => InfoDefault
  | Unreadable => InfoError
  | Document d => InfoDocument d
  end.

End Preferences.

(** ** [main.py]: the track, untrack and stockadvice commands *)

Module Commands.

Import StockDataManager PersistenceManager StockBot.

Inductive track_reply : Type :=
| CouldNotFind
| AlreadyTracked
| Added (stock_data : quote).

Inductive untrack_reply : Type :=
| NotTracked
| Removed.

Definition set_tracked_stocks (self : bot) (l : list string) : bot :=
  {| tracked_stocks := l;
     last_prices := last_prices self;
     stock_manager := stock_manager self |}.

Section CommandsUpper.

(** [str.upper], as in [PersistenceManager]. *)
Variable upper : string -> string.

(** [track_command], up to the messages and the channel that it asks
    Discord for: the reply, the bot and the file afterwards. *)
Definition track_command (up : upstream) (now : Z) (symbol : string)
    (self : bot) (fs : disk) : track_reply * bot * disk :=
  let symbol := upper symbol in
  let '(stock_data, m, _) :=
    get_stock_data up now symbol (stock_manager self) in
  let self := set_stock_manager self m in
  match stock_data with
  | None => (CouldNotFind, self, fs)
  | Some stock_data =>
      if py_in symbol (tracked_stocks self) then (AlreadyTracked, self, fs)
      else
        let self := set_tracked_stocks self (tracked_stocks self ++ [symbol]) in
        let '(_, fs) := save_tracked_stocks now (tracked_stocks self) fs in
        (Added stock_data, self, fs)
  end.

(** [untrack_command], up to the messages and the deletion of the channel. *)
Definition untrack_command (now : Z) (symbol : string) (self : bot) (fs : disk)
  : result untrack_reply * bot * disk :=
  let symbol := upper symbol in
  if negb (py_in symbol (tracked_stocks self)) then (Ok NotTracked, self, fs)
  else
    match list_remove symbol (tracked_stocks self) with
    | Raise x => (Raise x, self, fs)
    | Ok l =>
        let self := set_tracked_stocks self l in
        let '(_, fs) := save_tracked_stocks now (tracked_stocks self) fs in
        (Ok Removed, self, fs)
    end.

End CommandsUpper.

Section AdviceMessages.

(** Text as a list of characters; [tick] is the backquote. *)
Context {A : Type}.
Variable tick : A.

(** The [while remaining_advice] loop of [stockadvice_command]; [fuel]
    bounds the number of rounds. *)
Fixpoint remaining_chunks (fuel : nat) (remaining_advice : list A)
  : list (list A) :=
  match fuel with
  | O => []
  | S fuel =>
      match remaining_advice with
      | [] => []
      | _ => take 2000 remaining_advice
             :: remaining_chunks fuel (drop 2000 remaining_advice)
      end
  end.

(** The description of the embed and the follow-up messages, in order. *)
Definition advice_messages (advice : list A) : list A * list (list A) :=
  (take 4000 advice,
   if (4000 <? length advice)%nat
   then (fun chunk => [tick; tick; tick] ++ chunk ++ [tick; tick; tick])
          <$> remaining_chunks (length (drop 4000 advice)) (drop 4000 advice)
   else []).

End AdviceMessages.

End Commands.

(** ** [ai_advisor.py]: the context of the prompt *)

Module Context.

Import StockDataManager AIAdvisor.


Section PrepareContext.

Variable sqrt : float -> float.


End PrepareContext.

End Context.

(** ** More vocabulary and fixtures *)

Module MoreProps.

Import StockDataManager.

(** A strictly decreasing series, and a series whose neighbours are equal,
    by Python's [<] and [==]. *)
Fixpoint decreasing (xs : list float) : bool :=
  match xs with
  | a :: (b :: _) as tl => fltb b a && decreasing tl
  | _ => true
  end.

Fixpoint constant (xs : list float) : bool :=
  match xs with
  | a :: (b :: _) as tl => feqb a b && constant tl
  | _ => true
  end.

(** [x < 0]. *)
Definition neg (x : float) : Prop := fltb x zero = true.

(** The keys that [_calculate_technical_indicators] writes. *)
Definition indicator_keys : list string :=
  ["ma20"; "ma20_trend"; "ma10"; "ma10_trend"; "ma5"; "ma5_trend";
   "rsi"; "rsi_signal"; "volume_ratio"; "volume_signal"; "momentum_5d";
   "volatility"; "resistance_level"; "support_level"].

(** Every quote in the cache sits under the key of its own symbol. *)
Definition cache_keyed (self : manager) : Prop :=
  forall (s : string) (e : cache_entry),
    cache self !! cache_key s = Some e -> symbol (ce_data e) = s.

(** The alerts among the events of a tick. *)
Definition is_alert (ev : StockBot.event) : bool :=
  match ev with StockBot.Alert _ _ _ => true | StockBot.Fetch _ => false end.

(** The count that [get_tracked_stocks_info] reports is the length of the
    list that [load_tracked_stocks] reads from the same file. *)
Definition count_consistent (fs : PersistenceManager.disk) : Prop :=
  match Preferences.get_tracked_stocks_info fs with
  | Preferences.InfoDocument d =>
      PersistenceManager.count d
      = length (default [] (PersistenceManager.stocks d))
  | _ => True
  end.

(** The keys of the indicator dictionary of a frame of [n] rows. *)
Definition keys_of_length (n : nat) : list string :=
  ["volume_ratio"; "volume_signal"; "volatility"; "resistance_level";
   "support_level"]
  ++ (if (5 <=? n)%nat then ["ma5"; "ma5_trend"; "momentum_5d"] else [])
  ++ (if (10 <=? n)%nat then ["ma10"; "ma10_trend"] else [])
  ++ (if (14 <=? n)%nat then ["rsi"; "rsi_signal"] else [])
  ++ (if (20 <=? n)%nat then ["ma20"; "ma20_trend"] else []).


End MoreProps.

Module MoreFixtures.

Import StockDataManager.

(** [n] daily bars closing at 200, 199, 198, ... and [n] bars closing at
    100. *)
Definition falling (n : nat) : list bar :=
  (fun i => Fixtures.flat_bar (200 - Z.of_nat i) 1000) <$> seq 0 n.

Definition level (n : nat) : list bar :=
  (fun _ => Fixtures.flat_bar 100 1000) <$> seq 0 n.

(** A provider of histories that knows every symbol. *)
Definition history_of (hist : list bar) : History.history_upstream :=
  {| History.history := fun _ _ => YfHistory hist |}.

Definition no_history : History.hist_manager :=
  {| History.hist_cache := ∅; History.hist_cache_duration := 60 |}.

(** A bot that tracks nothing yet, and an unwritable file. *)
Definition fresh_bot : StockBot.bot :=
  {| StockBot.tracked_stocks := [];
     StockBot.last_prices := ∅;
     StockBot.stock_manager := init |}.

Definition read_only (l : list string) : PersistenceManager.disk :=
  {| PersistenceManager.tracked_stocks_file :=
       PersistenceManager.Document
         {| PersistenceManager.stocks := Some l;
            PersistenceManager.last_updated := 0;
            PersistenceManager.count := length l |};
     PersistenceManager.writable := false |}.

Definition no_prefs (w : bool) : Preferences.prefs_disk :=
  {| Preferences.user_preferences_file := Preferences.PrefsMissing;
     Preferences.prefs_writable := w |}.

End MoreFixtures.

(** * Properties *)

Import StockDataManager Props.

(** ** Facts about numbers *)

Section FloatFacts.

Local Open Scope Q_scope.

Lemma Qeqb_true (a b : Q) : Qeqb a b = true <-> a == b.
Proof. apply Qeq_bool_iff. Qed.

Lemma Qleb_true (a b : Q) : Qleb a b = true <-> a <= b.
Proof. apply Qle_bool_iff. Qed.

Lemma Qltb_true (a b : Q) : Qltb a b = true <-> a < b.
Proof.
  unfold Qltb. rewrite negb_true_iff, <- not_true_iff_false, Qle_bool_iff.
  split; [apply Qnot_le_lt | apply Qlt_not_le].
Qed.

Lemma Qltb_false (a b : Q) : Qltb a b = false <-> b <= a.
Proof.
  unfold Qltb. rewrite negb_false_iff. apply Qle_bool_iff.
Qed.

Lemma fsub_self (x : float) :
  is_finite x = true -> feqb (fsub x x) zero = true.
Proof.
  destruct x as [a| | |]; try discriminate. intros _. simpl.
  apply Qeqb_true. rewrite !Qred_correct. unfold inject_Z. ring.
Qed.

(** The percentage change of a price against itself never reaches the
    threshold: it is zero, or NaN for an infinite or NaN price. *)
Lemma no_change_no_alert (cp : float) :
  fgeb (fabs (fmul (fdiv (fsub cp cp) cp) (of_Z 100))) (of_Z 2) = false.
Proof.
  destruct cp as [a| | |]; try reflexivity.
  assert (Hz : Qred (a + Qred (- a)) == 0) by (rewrite !Qred_correct; ring).
  unfold fsub, fneg, fadd, fdiv.
  destruct (Qeqb a 0) eqn:Ha.
  - assert (Hz' : (0 ?= Qred (a + Qred (- a))) = Eq)
      by (apply Qeq_alt; symmetry; exact Hz).
    by rewrite Hz'.
  - unfold fmul, of_Z, fabs, fgeb, fleb.
    apply not_true_iff_false. rewrite Qleb_true.
    set (z := Qred (a + Qred (- a))) in *.
    assert (Hv : z / a * inject_Z 100 == 0)
      by (rewrite Hz; unfold Qdiv; ring).
    rewrite !Qred_correct, Hv.
    intros H. vm_compute in H. by apply H.
Qed.

End FloatFacts.

(** ** The freshness cache *)

Section Cache.

Lemma timedelta_seconds_range (d : Z) : 0 <= timedelta_seconds d < 86400.
Proof. unfold timedelta_seconds. apply Z.mod_pos_bound. lia. Qed.

Lemma timedelta_seconds_small (d : Z) :
  0 <= d < day -> timedelta_seconds d = d / second.
Proof.
  intros [H0 H1]. unfold timedelta_seconds, day, second in *.
  apply Z.mod_small. split.
  - apply Z.div_pos; lia.
  - apply Z.div_lt_upper_bound; lia.
Qed.

Lemma timedelta_seconds_fresh (d ttl : Z) :
  0 <= d < ttl * second -> timedelta_seconds d < ttl.
Proof.
  intros [H0 H1]. unfold timedelta_seconds, second in *.
  assert (Hq : 0 <= d / 1000000 < ttl).
  { split; [apply Z.div_pos; lia | apply Z.div_lt_upper_bound; lia]. }
  pose proof (Z.mod_le (d / 1000000) 86400 ltac:(lia) ltac:(lia)). lia.
Qed.

Lemma timedelta_seconds_wraps (d : Z) :
  timedelta_seconds (d + day) = timedelta_seconds d.
Proof.
  unfold timedelta_seconds, day, second.
  rewrite (Z.div_add d 86400 1000000) by lia.
  replace (d / 1000000 + 86400) with (d / 1000000 + 1 * 86400) by lia.
  apply Z.mod_add. lia.
Qed.

Lemma cache_valid_fresh (self : manager) (now : Z) (key : string) (e : cache_entry) :
  cache self !! key = Some e ->
  0 <= now - ce_timestamp e < cache_duration self * second ->
  _is_cache_valid self now key = true.
Proof.
  intros He Hage. unfold _is_cache_valid. rewrite He.
  apply Z.ltb_lt. by apply timedelta_seconds_fresh.
Qed.

Lemma get_stock_data_hit (up : upstream) (now : Z) (sym : string)
    (self : manager) (e : cache_entry) :
  cache self !! cache_key sym = Some e ->
  _is_cache_valid self now (cache_key sym) = true ->
  get_stock_data up now sym self = (Some (ce_data e), self, []).
Proof.
  intros He Hv. unfold get_stock_data. rewrite Hv, He. reflexivity.
Qed.

Lemma update_cache_lookup (self : manager) (now : Z) (key : string) (d : quote) :
  cache (_update_cache self now key d) !! key
  = Some {| ce_data := d; ce_timestamp := now |}.
Proof. unfold _update_cache; simpl. apply lookup_insert_eq. Qed.

(** A miss that answers has stored its answer under the key, stamped with
    the time of the call. *)
Lemma get_stock_data_miss_stores (up : upstream) (now : Z) (sym : string)
    (self self' : manager) (q : quote) (calls : list call) :
  _is_cache_valid self now (cache_key sym) = false ->
  get_stock_data up now sym self = (Some q, self', calls) ->
  self' = _update_cache self now (cache_key sym) q /\ fetch_count calls = 1%nat.
Proof.
  intros Hv. unfold get_stock_data. rewrite Hv.
  destruct (_get_yfinance_data up now sym) as [d|].
  - intros [= <- <- <-]. done.
  - destruct (_get_alpha_vantage_data up now sym) as [d|]; [|done].
    intros [= <- <- <-]. done.
Qed.

(** C6.  An entry of any key that is younger than [cache_duration] seconds
    passes the validity test; a call that finds such an entry for its
    symbol returns the cached payload and calls no provider; and after a call
    that had to fetch and got an answer, a second call for the same symbol
    one second later (with the 60 second duration) is answered from the
    cache, so the two calls together make exactly one fetch. *)
Theorem cache_hit_within_ttl :
  (forall (self : manager) (now : Z) (key : string) (e : cache_entry),
      cache self !! key = Some e ->
      0 <= now - ce_timestamp e < cache_duration self * second ->
      _is_cache_valid self now key = true)
  /\
  (forall (up : upstream) (now : Z) (sym : string) (self : manager)
          (e : cache_entry),
      cache self !! cache_key sym = Some e ->
      0 <= now - ce_timestamp e < cache_duration self * second ->
      get_stock_data up now sym self = (Some (ce_data e), self, []))
  /\
  (forall (up1 up2 : upstream) (t : Z) (sym : string) (self self1 : manager)
          (q : quote) (calls1 : list call),
      cache_duration self = 60 ->
      _is_cache_valid self t (cache_key sym) = false ->
      get_stock_data up1 t sym self = (Some q, self1, calls1) ->
      exists calls2,
        get_stock_data up2 (t + 1 * second) sym self1 = (Some q, self1, calls2)
        /\ fetch_count (calls1 ++ calls2) = 1%nat).
Proof.
  split; [exact cache_valid_fresh|]. split.
  - intros up now sym self e He Hage.
    apply (get_stock_data_hit up now sym self e He).
    by apply (cache_valid_fresh self now (cache_key sym) e).
  - intros up1 up2 t sym self self1 q calls1 Httl Hmiss Hget.
    destruct (get_stock_data_miss_stores _ _ _ _ _ _ _ Hmiss Hget) as [-> Hn].
    exists []. split.
    + pose proof (update_cache_lookup self t (cache_key sym) q) as Hl.
      apply (get_stock_data_hit up2 (t + 1 * second) sym _ _ Hl).
      eapply cache_valid_fresh; [exact Hl|]. simpl. rewrite Httl.
      unfold second. lia.
    + by rewrite app_nil_r.
Qed.

Lemma cache_hit_within_ttl_witness :
  get_stock_data Fixtures.all_down (30 * second) "AAPL" Fixtures.warm
  = (Some Fixtures.old_quote, Fixtures.warm, [])
  /\ exists calls2,
      get_stock_data Fixtures.all_down (0 + 1 * second) "AAPL"
        (_update_cache init 0 (cache_key "AAPL")
           (default Fixtures.old_quote
              (_get_yfinance_data (Fixtures.primary_at 103) 0 "AAPL")))
      = (_get_yfinance_data (Fixtures.primary_at 103) 0 "AAPL",
         _update_cache init 0 (cache_key "AAPL")
           (default Fixtures.old_quote
              (_get_yfinance_data (Fixtures.primary_at 103) 0 "AAPL")),
         calls2)
      /\ fetch_count ([Primary "AAPL"] ++ calls2) = 1%nat.
Proof.
  split.
  - apply (proj1 (proj2 cache_hit_within_ttl) Fixtures.all_down (30 * second)
             "AAPL"
             Fixtures.warm
             {| ce_data := Fixtures.old_quote; ce_timestamp := 0 |}).
    + vm_compute. reflexivity.
    + vm_compute. split; [discriminate | reflexivity].
  - apply (proj2 (proj2 cache_hit_within_ttl) (Fixtures.primary_at 103)
             Fixtures.all_down 0 "AAPL" init).
    + reflexivity.
    + vm_compute. reflexivity.
    + vm_compute. reflexivity.
Defined.

(** Between expiry and the end of the first day the entry is not served:
    the providers are asked, and when both fail the caller gets [None] and
    the manager is left as it was. *)
Lemma expired_entry_refetched (up : upstream) (now : Z) (sym : string)
    (self : manager) (e : cache_entry) :
  cache self !! cache_key sym = Some e ->
  0 <= cache_duration self ->
  cache_duration self * second <= now - ce_timestamp e < day ->
  _is_cache_valid self now (cache_key sym) = false
  /\ Primary sym ∈ (get_stock_data up now sym self).2
  /\ (_get_yfinance_data up now sym = None ->
      _get_alpha_vantage_data up now sym = None ->
      get_stock_data up now sym self = (None, self, [Primary sym; Fallback sym])).
Proof.
  intros He Httl [Hlo Hhi].
  assert (Hv : _is_cache_valid self now (cache_key sym) = false).
  { unfold _is_cache_valid. rewrite He. apply Z.ltb_ge.
    rewrite timedelta_seconds_small by (unfold day, second in *; lia).
    apply Z.div_le_lower_bound; unfold second in *; lia. }
  split; [done|]. unfold get_stock_data. rewrite Hv. split.
  - destruct (_get_yfinance_data up now sym); simpl; [set_solver|].
    destruct (_get_alpha_vantage_data up now sym); simpl; set_solver.
  - by intros -> ->.
Qed.

(** The seconds field forgets whole days: an entry that is [k] days and
    less than [cache_duration] seconds old passes the validity test. *)
Lemma cache_valid_after_days (self : manager) (now : Z) (key : string)
    (e : cache_entry) (k : nat) :
  cache self !! key = Some e ->
  0 <= now - ce_timestamp e - Z.of_nat k * day < cache_duration self * second ->
  _is_cache_valid self now key = true.
Proof.
  intros He Hage. unfold _is_cache_valid. rewrite He. apply Z.ltb_lt.
  replace (now - ce_timestamp e)
    with ((now - ce_timestamp e - Z.of_nat k * day) + Z.of_nat k * day) by lia.
  generalize dependent (now - ce_timestamp e - Z.of_nat k * day). intros d Hd.
  induction k as [|k IH].
  - replace (d + Z.of_nat 0 * day) with d by lia.
    by apply timedelta_seconds_fresh.
  - replace (d + Z.of_nat (S k) * day) with (d + Z.of_nat k * day + day) by lia.
    by rewrite timedelta_seconds_wraps.
Qed.

(** C1, at the failing input.  The entry of [Fixtures.warm] was fetched at
    time 0; one day later its age is 86400 seconds, far beyond the 60 second
    duration, and the primary provider has a new price (103).  The validity
    test still passes, the old quote is returned and no provider is called. *)
Theorem stale_entry_served_after_a_day :
  cache Fixtures.warm !! cache_key "AAPL"
  = Some {| ce_data := Fixtures.old_quote; ce_timestamp := 0 |}
  /\ cache_duration Fixtures.warm * second <= day - 0
  /\ _is_cache_valid Fixtures.warm day (cache_key "AAPL") = true
  /\ get_stock_data (Fixtures.primary_at 103) day "AAPL" Fixtures.warm
     = (Some Fixtures.old_quote, Fixtures.warm, [])
  /\ (exists q, _get_yfinance_data (Fixtures.primary_at 103) day "AAPL" = Some q
                /\ current_price q = of_Z 103).
Proof.
  split; [by vm_compute|]. split; [by vm_compute|]. split; [by vm_compute|].
  split; [by vm_compute|].
  eexists. split; [vm_compute; reflexivity | reflexivity].
Qed.

End Cache.

(** ** The provider chain *)

Section Providers.

Lemma result_bind_ok {A B} (a : A) (f : A -> result B) : (Ok a ≫= f) = f a.
Proof. reflexivity. Qed.

Lemma iloc_last_snoc {A} (l : list A) (x : A) : iloc_last (l ++ [x]) = Ok x.
Proof. unfold iloc_last. by rewrite last_snoc. Qed.

Lemma iloc_neg_2_snoc {A} (l : list A) (x y : A) :
  iloc_neg 2 (l ++ [x; y]) = Ok x.
Proof.
  unfold iloc_neg. rewrite length_app. simpl.
  destruct (Nat.ltb_spec (length l + 2) 2) as [?|_]; [lia|].
  replace (length l + 2 - 2)%nat with (length l) by lia.
  by rewrite list_lookup_middle.
Qed.

Lemma py_truediv_guarded (x y : float) :
  fneb y zero = true -> py_truediv x y = Ok (fdiv x y).
Proof.
  unfold fneb, py_truediv. by destruct (feqb y zero).
Qed.

(** The quote built from the last bar [current] and the bar [previous]
    before it. *)
Lemma yfinance_quote_shape (sym : string) (now : Z) (previous current : bar) :
  exists q : quote,
    (current_data ← Ok current;
     previous_data ← Ok previous;
     let current_price := Close current_data in
     let previous_close := Close previous_data in
     let change := fsub current_price previous_close in
     change_percent ← (if fneb previous_close zero
                       then r ← py_truediv change previous_close;
                            Ok (fmul r (of_Z 100))
                       else Ok zero);
     Ok (Some {| symbol := sym;
                 current_price := current_price;
                 change := change;
                 change_percent := change_percent;
                 open := Open current_data;
                 high := High current_data;
                 low := Low current_data;
                 volume := Volume current_data;
                 previous_close := previous_close;
                 timestamp := now;
                 source := "yfinance" |})) = Ok (Some q)
    /\ symbol q = sym /\ source q = "yfinance"
    /\ current_price q = Close current
    /\ previous_close q = Close previous
    /\ open q = Open current /\ high q = High current /\ low q = Low current
    /\ volume q = Volume current
    /\ quote_consistent q.
Proof.
  cbn. destruct (fneb (Close previous) zero) eqn:Hz.
  - rewrite (py_truediv_guarded _ _ Hz). cbn. eexists. split; [reflexivity|].
    unfold quote_consistent; cbn. by rewrite Hz.
  - cbn. eexists. split; [reflexivity|].
    unfold quote_consistent; cbn. by rewrite Hz.
Qed.

Lemma yfinance_two_bars (up : upstream) (now : Z) (sym : string)
    (older : list bar) (previous current : bar) :
  yfinance up sym = YfHistory (older ++ [previous; current]) ->
  exists q : quote,
    _get_yfinance_data up now sym = Some q
    /\ symbol q = sym /\ source q = "yfinance"
    /\ current_price q = Close current
    /\ previous_close q = Close previous
    /\ open q = Open current /\ high q = High current /\ low q = Low current
    /\ volume q = Volume current
    /\ quote_consistent q.
Proof.
  intros Hup.
  destruct (yfinance_quote_shape sym now previous current) as (q & Hq & Hrest).
  exists q. split; [|exact Hrest].
  assert (Hlast : iloc_last (older ++ [previous; current]) = Ok current).
  { replace (older ++ [previous; current])
      with ((older ++ [previous]) ++ [current]) by (by rewrite <- app_assoc).
    apply iloc_last_snoc. }
  assert (Hlen : (1 <? length (older ++ [previous; current]))%nat = true).
  { apply Nat.ltb_lt. rewrite length_app. simpl. lia. }
  unfold _get_yfinance_data. rewrite Hup, result_bind_ok.
  rewrite bool_decide_eq_false_2 by (by destruct older).
  rewrite Hlast, result_bind_ok, Hlen, iloc_neg_2_snoc.
  cbn in Hq |- *. by rewrite Hq.
Qed.

Lemma yfinance_one_bar (up : upstream) (now : Z) (sym : string) (current : bar) :
  yfinance up sym = YfHistory [current] ->
  exists q : quote,
    _get_yfinance_data up now sym = Some q
    /\ symbol q = sym /\ source q = "yfinance"
    /\ current_price q = Close current
    /\ previous_close q = Close current
    /\ open q = Open current /\ high q = High current /\ low q = Low current
    /\ volume q = Volume current
    /\ quote_consistent q.
Proof.
  intros Hup.
  destruct (yfinance_quote_shape sym now current current) as (q & Hq & Hrest).
  exists q. split; [|exact Hrest].
  unfold _get_yfinance_data. rewrite Hup. cbn in Hq |- *. by rewrite Hq.
Qed.

Lemma yfinance_nothing (up : upstream) (now : Z) (sym : string) :
  yfinance up sym = YfError \/ yfinance up sym = YfHistory [] ->
  _get_yfinance_data up now sym = None.
Proof. unfold _get_yfinance_data. by intros [-> | ->]. Qed.

(** Whatever the primary provider does, a quote it yields is tagged and
    consistent. *)
Lemma yfinance_quote_consistent (up : upstream) (now : Z) (sym : string)
    (q : quote) :
  _get_yfinance_data up now sym = Some q ->
  source q = "yfinance" /\ quote_consistent q
  /\ exists hist, yfinance up sym = YfHistory hist /\ hist <> [].
Proof.
  intros Hq. destruct (yfinance up sym) as [|hist] eqn:Hup.
  - by rewrite yfinance_nothing in Hq by auto.
  - destruct hist as [|b hist _] using rev_ind.
    { by rewrite yfinance_nothing in Hq by auto. }
    assert (Hne : hist ++ [b] <> []) by (by destruct hist).
    destruct hist as [|a hist _] using rev_ind.
    + destruct (yfinance_one_bar up now sym b Hup)
        as (q' & Hq' & _ & Hsrc & _ & _ & _ & _ & _ & _ & Hcons).
      rewrite Hq in Hq'. injection Hq' as <-.
      split; [done|]. split; [done|]. by exists [b].
    + rewrite <- app_assoc in Hup. simpl in Hup.
      destruct (yfinance_two_bars up now sym hist a b Hup)
        as (q' & Hq' & _ & Hsrc & _ & _ & _ & _ & _ & _ & Hcons).
      rewrite Hq in Hq'. injection Hq' as <-. rewrite <- app_assoc. simpl.
      split; [done|]. split; [done|].
      eexists; split; [done|]. by destruct hist.
Qed.

(** A quote of the fallback provider repeats the provider's fields. *)
Lemma alpha_vantage_quote (up : upstream) (now : Z) (sym : string) (q : quote) :
  _get_alpha_vantage_data up now sym = Some q ->
  source q = "alpha_vantage"
  /\ exists g, alpha_vantage up sym = AvReply 200 (Some g)
       /\ gq_price g = Some (current_price q)
       /\ gq_previous_close g = Some (previous_close q)
       /\ gq_change g = Some (change q)
       /\ gq_change_percent g = Some (change_percent q).
Proof.
  unfold _get_alpha_vantage_data.
  destruct (alpha_vantage up sym) as [|st body]; [done|].
  destruct (Z.eqb_spec st 200) as [->|?]; [|done]. simpl.
  destruct body as [g|]; [|done].
  destruct g as [[?|] [?|] [?|] [?|] [?|] [?|] [?|] [?|]]; cbn; try done.
  intros [= <-]. cbn. split; [done|]. eexists. by split.
Qed.

Lemma alpha_vantage_nothing (up : upstream) (now : Z) (sym : string) :
  alpha_vantage up sym = AvError
  \/ (exists st body, alpha_vantage up sym = AvReply st body
                      /\ (st <> 200 \/ body = None)) ->
  _get_alpha_vantage_data up now sym = None.
Proof.
  unfold _get_alpha_vantage_data.
  intros [-> | (st & body & -> & [Hst | ->])]; [done| |].
  - by destruct (Z.eqb_spec st 200).
  - by destruct (st =? 200).
Qed.

End Providers.

Section ProviderClaims.

(** C3.  Whatever the state of the cache, a call to a provider starts with
    the primary one, and the fallback is asked only when the primary raised
    or returned an empty history.  On a cache miss the primary provider is
    asked: a history of two bars or more gives a quote of the last bar
    against the bar before it, a history of one bar a quote of that bar
    against itself (change zero), both tagged ["yfinance"] and without a
    call to the fallback; when the primary raises or returns nothing the
    quote of the fallback is returned, tagged ["alpha_vantage"]; and when
    the fallback fails too the answer is [None], with the manager
    unchanged. *)
Theorem provider_order (up : upstream) (now : Z) (sym : string) (self : manager) :
  ((get_stock_data up now sym self).2 = []
   \/ (get_stock_data up now sym self).2 = [Primary sym]
   \/ (get_stock_data up now sym self).2 = [Primary sym; Fallback sym])
  /\ (Fallback sym ∈ (get_stock_data up now sym self).2 ->
      yfinance up sym = YfError \/ yfinance up sym = YfHistory [])
  /\ (_is_cache_valid self now (cache_key sym) = false ->
      (forall older previous current,
          yfinance up sym = YfHistory (older ++ [previous; current]) ->
          exists q,
            get_stock_data up now sym self
            = (Some q, _update_cache self now (cache_key sym) q, [Primary sym])
            /\ source q = "yfinance"
            /\ current_price q = Close current
            /\ previous_close q = Close previous
            /\ change q = fsub (Close current) (Close previous))
      /\ (forall current,
          yfinance up sym = YfHistory [current] ->
          exists q,
            get_stock_data up now sym self
            = (Some q, _update_cache self now (cache_key sym) q, [Primary sym])
            /\ source q = "yfinance"
            /\ current_price q = Close current
            /\ previous_close q = current_price q
            /\ (is_finite (Close current) = true ->
                feqb (change q) zero = true))
      /\ (yfinance up sym = YfError \/ yfinance up sym = YfHistory [] ->
          (forall q,
              _get_alpha_vantage_data up now sym = Some q ->
              get_stock_data up now sym self
              = (Some q, _update_cache self now (cache_key sym) q,
                 [Primary sym; Fallback sym])
              /\ source q = "alpha_vantage")
          /\ (_get_alpha_vantage_data up now sym = None ->
              get_stock_data up now sym self
              = (None, self, [Primary sym; Fallback sym]))
          /\ (alpha_vantage up sym = AvError
              \/ (exists st body, alpha_vantage up sym = AvReply st body
                                  /\ (st <> 200 \/ body = None)) ->
              get_stock_data up now sym self
              = (None, self, [Primary sym; Fallback sym])))).
Proof.
  assert (Hfb : _get_yfinance_data up now sym = None ->
                yfinance up sym = YfError \/ yfinance up sym = YfHistory []).
  { intros Hq. destruct (yfinance up sym) as [|hist] eqn:Hup; [auto|].
    destruct hist as [|x l _] using rev_ind; [auto|].
    exfalso. destruct l as [|a l _] using rev_ind.
    - destruct (yfinance_one_bar up now sym x Hup) as (q & Hq' & _).
      congruence.
    - rewrite <- app_assoc in Hup. simpl in Hup.
      destruct (yfinance_two_bars up now sym l a x Hup) as (q & Hq' & _).
      congruence. }
  unfold get_stock_data.
  destruct (_is_cache_valid self now (cache_key sym)) eqn:Hv.
  { split; [by left|]. split; [|done].
    simpl. intros Hin. by apply elem_of_nil in Hin. }
  split; [|split].
  - destruct (_get_yfinance_data up now sym); [auto|].
    destruct (_get_alpha_vantage_data up now sym); auto.
  - destruct (_get_yfinance_data up now sym) as [q|] eqn:Hq; [|auto].
    simpl. intros Hin. apply list_elem_of_singleton in Hin. discriminate.
  - intros _. split; [|split].
    + intros older previous current Hup.
      destruct (yfinance_two_bars up now sym _ _ _ Hup)
        as (q & -> & _ & Hsrc & Hcur & Hprev & _ & _ & _ & _ & Hchg & _).
      exists q. rewrite Hchg, Hcur, Hprev. done.
    + intros current Hup.
      destruct (yfinance_one_bar up now sym _ Hup)
        as (q & -> & _ & Hsrc & Hcur & Hprev & _ & _ & _ & _ & Hchg & _).
      exists q. rewrite Hchg, Hcur, Hprev. repeat split; try done.
      apply fsub_self.
    + intros Hup. rewrite (yfinance_nothing up now sym Hup).
      split; [|split].
      * intros q Hq. rewrite Hq. split; [done|].
        by destruct (alpha_vantage_quote up now sym q Hq).
      * by intros ->.
      * intros Hav. by rewrite (alpha_vantage_nothing up now sym Hav).
Qed.

Lemma provider_order_witness :
  exists q,
    get_stock_data (Fixtures.primary_at 103) 0 "AAPL" init
    = (Some q, _update_cache init 0 (cache_key "AAPL") q, [Primary "AAPL"])
    /\ source q = "yfinance"
    /\ current_price q = of_Z 103
    /\ previous_close q = of_Z 100
    /\ change q = fsub (of_Z 103) (of_Z 100).
Proof.
  assert (Hmiss : _is_cache_valid init 0 (cache_key "AAPL") = false)
    by reflexivity.
  exact (proj1 (proj2 (proj2 (provider_order (Fixtures.primary_at 103) 0
                                "AAPL" init)) Hmiss)
           [] (Fixtures.flat_bar 100 1000) (Fixtures.flat_bar 103 1000)
           eq_refl).
Defined.

(** C7, as it stands, fails on the fallback path: the quote repeats the
    provider's change field (0) although the prices differ by 5. *)
Lemma fallback_quote_inconsistent :
  exists q self' calls,
    get_stock_data Fixtures.skewed_fallback 0 "AAPL" init
    = (Some q, self', calls)
    /\ feqb (change q) (fsub (current_price q) (previous_close q)) = false
    /\ fneb (previous_close q) zero = true
    /\ feqb (change_percent q)
            (fmul (fdiv (fsub (current_price q) (previous_close q))
                        (previous_close q)) (of_Z 100)) = false.
Proof.
  eexists _, _, _. split; [vm_compute; reflexivity|]. by vm_compute.
Qed.

(** C7, amended.  A quote that [get_stock_data] returns with the tag of the
    primary provider satisfies the invariant, whether it was just built or
    comes from the cache (whose primary entries are consistent, as they are
    from the empty cache on); a quote just fetched from the fallback carries
    the provider's own change and change-percent fields. *)
Theorem primary_quotes_consistent (up : upstream) (now : Z) (sym : string)
    (self self' : manager) (q : quote) (calls : list call) :
  cache_consistent self ->
  get_stock_data up now sym self = (Some q, self', calls) ->
  (source q = "yfinance" -> quote_consistent q)
  /\ (Fallback sym ∈ calls ->
      source q = "alpha_vantage"
      /\ exists g, alpha_vantage up sym = AvReply 200 (Some g)
           /\ gq_price g = Some (current_price q)
           /\ gq_previous_close g = Some (previous_close q)
           /\ gq_change g = Some (change q)
           /\ gq_change_percent g = Some (change_percent q))
  /\ cache_consistent self'.
Proof.
  intros Hinv. unfold get_stock_data.
  destruct (_is_cache_valid self now (cache_key sym)) eqn:Hv.
  - destruct (cache self !! cache_key sym) as [e|] eqn:He; [|done].
    cbn. intros [= <- <- <-]. split; [by apply (Hinv _ _ He)|].
    split; [|done]. intros Hin. by apply elem_of_nil in Hin.
  - destruct (_get_yfinance_data up now sym) as [d|] eqn:Hd.
    + intros [= <- <- <-].
      destruct (yfinance_quote_consistent up now sym d Hd) as (Hsrc & Hc & _).
      split; [done|]. split.
      * intros Hin. apply list_elem_of_singleton in Hin. discriminate.
      * intros k e. unfold _update_cache; simpl.
        rewrite lookup_insert. case_decide.
        -- by intros [= <-].
        -- apply Hinv.
    + destruct (_get_alpha_vantage_data up now sym) as [d|] eqn:Hd'; [|done].
      intros [= <- <- <-].
      destruct (alpha_vantage_quote up now sym d Hd') as (Hsrc & Hg).
      split; [by rewrite Hsrc|]. split; [done|].
      intros k e. unfold _update_cache; simpl.
      rewrite lookup_insert. case_decide.
      * intros [= <-]. simpl. by rewrite Hsrc.
      * apply Hinv.
Qed.

Lemma primary_quotes_consistent_witness :
  (source Fixtures.fresh_quote = "yfinance"
   -> quote_consistent Fixtures.fresh_quote)
  /\ (Fallback "AAPL" ∈ [Primary "AAPL"] ->
      source Fixtures.fresh_quote = "alpha_vantage"
      /\ exists g,
          alpha_vantage (Fixtures.primary_at 103) "AAPL" = AvReply 200 (Some g)
          /\ gq_price g = Some (current_price Fixtures.fresh_quote)
          /\ gq_previous_close g = Some (previous_close Fixtures.fresh_quote)
          /\ gq_change g = Some (change Fixtures.fresh_quote)
          /\ gq_change_percent g = Some (change_percent Fixtures.fresh_quote))
  /\ cache_consistent
       (_update_cache init 0 (cache_key "AAPL") Fixtures.fresh_quote).
Proof.
  apply (primary_quotes_consistent (Fixtures.primary_at 103) 0 "AAPL" init).
  - intros k e. unfold init; simpl. by rewrite lookup_empty.
  - vm_compute. reflexivity.
Defined.

End ProviderClaims.

(** ** The price monitor *)

Section Monitor.

Import StockBot.

#[local] Arguments fneb : simpl never.
#[local] Arguments fgeb : simpl never.
#[local] Arguments fabs : simpl never.
#[local] Arguments fmul : simpl never.
#[local] Arguments fdiv : simpl never.
#[local] Arguments fsub : simpl never.
#[local] Arguments of_Z : simpl never.

Lemma set_stock_manager_same (self : bot) :
  set_stock_manager self (stock_manager self) = self.
Proof. by destruct self. Qed.

(** A symbol for which no quote comes back leaves the manager as it was. *)
Lemma get_stock_data_none (up : upstream) (t : Z) (sym : string)
    (self m : manager) (calls : list call) :
  get_stock_data up t sym self = (None, m, calls) -> m = self.
Proof.
  unfold get_stock_data.
  destruct (_is_cache_valid self t (cache_key sym)); [by intros [= _ <- _]|].
  destruct (_get_yfinance_data up t sym); [done|].
  destruct (_get_alpha_vantage_data up t sym); [done|].
  by intros [= <- _].
Qed.

(** The percentage change that the loop body works with. *)
Lemma percent_change_guarded (cp lp : float) :
  fneb lp zero = true ->
  percent_change cp lp = Ok (fmul (fdiv (fsub cp lp) lp) (of_Z 100)).
Proof. intros H. unfold percent_change. by rewrite py_truediv_guarded. Qed.

Lemma percent_change_zero (cp lp : float) :
  fneb lp zero = false -> percent_change cp lp = Raise ZeroDivisionError.
Proof.
  unfold fneb, percent_change, py_truediv. by destruct (feqb lp zero).
Qed.

(** The loop body when a quote came back, by cases. *)
Lemma monitor_symbol_fetched (e : env) (sym : string) (self : bot) (q : quote)
    (m : manager) (calls : list call) :
  get_stock_data (providers e) (now e) sym (stock_manager self) = (Some q, m, calls) ->
  let cp := current_price q in
  let lp := default cp (last_prices self !! sym) in
  let pct := fmul (fdiv (fsub cp lp) lp) (of_Z 100) in
  let self1 := set_stock_manager self m in
  monitor_symbol e sym self =
    if fneb lp zero && fgeb (fabs pct) (of_Z 2)
    then if delivers e sym
         then (Ok tt, set_last_price self1 sym cp,
               (Fetch <$> calls) ++ [Alert sym q pct])
         else (Raise UpstreamError, self1,
               (Fetch <$> calls) ++ [Alert sym q pct])
    else (Ok tt, set_last_price self1 sym cp, Fetch <$> calls).
Proof.
  intros Hget cp lp pct self1. unfold monitor_symbol. rewrite Hget. simpl.
  fold cp. fold lp.
  destruct (fneb lp zero) eqn:Hz; simpl.
  - rewrite (py_truediv_guarded _ _ Hz). fold pct.
    destruct (fgeb (fabs pct) (of_Z 2)); simpl.
    + unfold send_price_alert. by destruct (delivers e sym).
    + by rewrite app_nil_r.
  - by rewrite app_nil_r.
Qed.

Lemma alert_not_fetch (sym : string) (q : quote) (pct : float)
    (calls : list call) :
  Alert sym q pct ∉ Fetch <$> calls.
Proof.
  intros Hin. apply list_elem_of_fmap in Hin as (c & Hc & _). discriminate.
Qed.




(** The two ticks of the specification: from a baseline of 100, a price of
    103 raises an alert of 3 percent and a price of 101 raises none; the
    baseline afterwards is the new price in both. *)
Example alert_at_103_not_at_101 :
  monitor_symbol (Fixtures.delivery_works 103) "AAPL" Fixtures.two_tracked
  = (Ok tt,
     set_last_price
       (set_stock_manager Fixtures.two_tracked
          (_update_cache init 0 (cache_key "AAPL") Fixtures.fresh_quote))
       "AAPL" (of_Z 103),
     [Fetch (Primary "AAPL"); Alert "AAPL" Fixtures.fresh_quote (of_Z 3)])
  /\ (monitor_symbol (Fixtures.delivery_works 101) "AAPL"
        Fixtures.two_tracked).2
     = [Fetch (Primary "AAPL")]
  /\ last_prices
       (monitor_symbol (Fixtures.delivery_works 101) "AAPL"
          Fixtures.two_tracked).1.2 !! "AAPL"
     = Some (of_Z 101).
Proof. by vm_compute. Qed.

(** C10.  With a stored baseline equal to zero the loop body neither
    computes the percentage change (which would raise) nor emits an alert:
    its events are the provider calls only; it ends normally with the
    current price as the new baseline, and the loop goes on to the next
    symbol from there. *)
Theorem zero_baseline_skipped (e : env) (sym : string) (rest : list string)
    (self : bot) (q : quote) (m : manager) (calls : list call) (lp : float) :
  get_stock_data (providers e) (now e) sym (stock_manager self) = (Some q, m, calls) ->
  last_prices self !! sym = Some lp ->
  feqb lp zero = true ->
  let self' := set_last_price (set_stock_manager self m) sym (current_price q) in
  percent_change (current_price q) lp = Raise ZeroDivisionError
  /\ monitor_symbol e sym self = (Ok tt, self', Fetch <$> calls)
  /\ last_prices self' !! sym = Some (current_price q)
  /\ monitor_loop e (sym :: rest) self
     = (let '(r, s, evs) := monitor_loop e rest self' in
        (r, s, (Fetch <$> calls) ++ evs)).
Proof.
  intros Hget Hlp Hz self'.
  assert (Hne : fneb lp zero = false) by (unfold fneb; by rewrite Hz).
  assert (Hstep : monitor_symbol e sym self = (Ok tt, self', Fetch <$> calls)).
  { rewrite (monitor_symbol_fetched e sym self q m calls Hget).
    rewrite Hlp. simpl. by rewrite Hne. }
  split; [by apply percent_change_zero|]. split; [done|].
  split; [apply lookup_insert_eq|].
  simpl. by rewrite Hstep.
Qed.

Lemma zero_baseline_skipped_witness :
  monitor_symbol (Fixtures.delivery_works 103) "AAPL" Fixtures.zero_baseline
  = (Ok tt,
     set_last_price
       (set_stock_manager Fixtures.zero_baseline
          (_update_cache init 0 (cache_key "AAPL") Fixtures.fresh_quote))
       "AAPL" (current_price Fixtures.fresh_quote),
     Fetch <$> [Primary "AAPL"]).
Proof.
  refine (proj1 (proj2 (zero_baseline_skipped (Fixtures.delivery_works 103)
            "AAPL" [] Fixtures.zero_baseline Fixtures.fresh_quote
            (_update_cache init 0 (cache_key "AAPL") Fixtures.fresh_quote)
            [Primary "AAPL"] (of_Z 0) _ _ _))).
  - vm_compute. reflexivity.
  - vm_compute. reflexivity.
  - vm_compute. reflexivity.
Defined.

Lemma monitor_symbol_none (e : env) (sym : string) (self : bot) (m : manager)
    (calls : list call) :
  get_stock_data (providers e) (now e) sym (stock_manager self) = (None, m, calls) ->
  monitor_symbol e sym self = (Ok tt, self, Fetch <$> calls).
Proof.
  intros Hget. unfold monitor_symbol. rewrite Hget.
  rewrite (get_stock_data_none _ _ _ _ _ _ Hget).
  by rewrite set_stock_manager_same.
Qed.

(** C5, as it stands, fails for an error other than a failed fetch.  Both
    symbols have a quote at 103 against a baseline of 100; the delivery of
    the alert for the first one raises, and the tick ends there: the second
    symbol is not fetched and keeps its baseline of 100. *)
Lemma delivery_error_skips_later_symbols :
  (monitor_symbol Fixtures.delivery_fails "AAPL" Fixtures.two_tracked).1.1
  = Raise UpstreamError
  /\ (price_monitor Fixtures.delivery_fails Fixtures.two_tracked).2
     = [Fetch (Primary "AAPL"); Alert "AAPL" Fixtures.fresh_quote (of_Z 3)]
  /\ last_prices (price_monitor Fixtures.delivery_fails Fixtures.two_tracked).1
       !! "MSFT" = Some (of_Z 100)
  /\ current_price <$>
       (get_stock_data (providers Fixtures.delivery_fails)
          (now Fixtures.delivery_fails) "MSFT"
          (stock_manager
             (price_monitor Fixtures.delivery_fails Fixtures.two_tracked).1)).1.1
     = Some (of_Z 103).
Proof. by vm_compute. Qed.

(** C5, amended.  A symbol whose fetch fails is skipped: the bot is
    unchanged and the loop treats the remaining symbols as it would without
    it.  The body raises only when the delivery of an alert raises; the
    loop then stops with the state and events reached so far, the baseline
    of that symbol and the symbols after it untouched.  Whatever the
    outcome of the loop, [price_monitor] returns the state reached. *)
Theorem fetch_failure_isolated (e : env) (sym : string) (rest : list string)
    (self : bot) :
  (forall m calls,
      get_stock_data (providers e) (now e) sym (stock_manager self) = (None, m, calls) ->
      monitor_symbol e sym self = (Ok tt, self, Fetch <$> calls)
      /\ monitor_loop e (sym :: rest) self
         = (let '(r, s, evs) := monitor_loop e rest self in
            (r, s, (Fetch <$> calls) ++ evs)))
  /\ (forall x s evs,
      monitor_symbol e sym self = (Raise x, s, evs) ->
      delivers e sym = false
      /\ (exists q pct, Alert sym q pct ∈ evs)
      /\ last_prices s = last_prices self
      /\ monitor_loop e (sym :: rest) self = (Raise x, s, evs))
  /\ (forall r s evs,
      monitor_loop e (tracked_stocks self) self = (r, s, evs) ->
      price_monitor e self = (s, evs)).
Proof.
  split; [|split].
  - intros m calls Hget.
    pose proof (monitor_symbol_none e sym self m calls Hget) as Hstep.
    split; [done|]. simpl. by rewrite Hstep.
  - intros x s evs Hstep.
    assert (Hloop : monitor_loop e (sym :: rest) self = (Raise x, s, evs))
      by (simpl; by rewrite Hstep).
    destruct (get_stock_data (providers e) (now e) sym (stock_manager self))
      as [[[q|] m] calls] eqn:Hget.
    + rewrite (monitor_symbol_fetched e sym self q m calls Hget) in Hstep.
      destruct (_ && _); [|discriminate].
      destruct (delivers e sym); [discriminate|].
      injection Hstep as <- <- <-.
      split; [done|]. split; [|by split].
      eexists q, _. apply elem_of_app. right. by apply list_elem_of_singleton.
    + rewrite (monitor_symbol_none e sym self m calls Hget) in Hstep.
      discriminate.
  - intros r s evs Hloop. unfold price_monitor.
    destruct (bool_decide_reflect (tracked_stocks self = [])) as [Hnil|_].
    + rewrite Hnil in Hloop. by injection Hloop as _ <- <-.
    + by rewrite Hloop.
Qed.

Lemma fetch_failure_isolated_witness :
  monitor_symbol Fixtures.first_unknown "AAPL" Fixtures.two_tracked
  = (Ok tt, Fixtures.two_tracked, Fetch <$> [Primary "AAPL"; Fallback "AAPL"])
  /\ monitor_loop Fixtures.first_unknown ("AAPL" :: ["MSFT"])
       Fixtures.two_tracked
     = (let '(r, s, evs) :=
          monitor_loop Fixtures.first_unknown ["MSFT"] Fixtures.two_tracked in
        (r, s, (Fetch <$> [Primary "AAPL"; Fallback "AAPL"]) ++ evs)).
Proof.
  apply (proj1 (fetch_failure_isolated Fixtures.first_unknown "AAPL" ["MSFT"]
                  Fixtures.two_tracked) init).
  vm_compute. reflexivity.
Defined.

(** In that tick the second symbol is evaluated and gets its new baseline. *)
Example unknown_symbol_then_known :
  last_prices (price_monitor Fixtures.first_unknown Fixtures.two_tracked).1
    !! "MSFT" = Some (of_Z 103)
  /\ last_prices (price_monitor Fixtures.first_unknown Fixtures.two_tracked).1
       !! "AAPL" = Some (of_Z 100).
Proof. by vm_compute. Qed.

End Monitor.

(** ** Persistence of the tracked symbols *)

Section Persistence.

Import PersistenceManager.

Variable upper : string -> string.

Lemma py_in_true (x : string) (xs : list string) : py_in x xs = true <-> x ∈ xs.
Proof. unfold py_in. apply bool_decide_eq_true. Qed.

Lemma py_in_false (x : string) (xs : list string) : py_in x xs = false <-> x ∉ xs.
Proof. unfold py_in. apply bool_decide_eq_false. Qed.

(** [xs.remove(x)] takes out the first occurrence. *)
Lemma list_remove_first (x : string) (l1 l2 : list string) :
  x ∉ l1 -> list_remove x (l1 ++ x :: l2) = Ok (l1 ++ l2).
Proof.
  induction l1 as [|y l1 IH]; intros Hnot; simpl.
  - by rewrite bool_decide_eq_true_2.
  - apply not_elem_of_cons in Hnot as [Hne Hnot].
    rewrite bool_decide_eq_false_2 by done. by rewrite IH.
Qed.

Lemma list_remove_snoc (x : string) (l : list string) :
  x ∉ l -> list_remove x (l ++ [x]) = Ok l.
Proof.
  intros Hnot. rewrite list_remove_first by done. by rewrite app_nil_r.
Qed.


Lemma load_keeps_writable (t : Z) (fs : disk) :
  writable (load_tracked_stocks t fs).2 = writable fs.
Proof.
  unfold load_tracked_stocks, save_tracked_stocks.
  destruct (tracked_stocks_file fs); try done.
  by destruct (writable fs) eqn:Hw.
Qed.

(** The list that is loaded does not depend on the clock, a file that is
    not writable is left as it is, and so is a file from which a symbol
    was read. *)
Lemma load_list_any_time (t t' : Z) (fs : disk) :
  (load_tracked_stocks t' fs).1 = (load_tracked_stocks t fs).1.
Proof. unfold load_tracked_stocks. by destruct (tracked_stocks_file fs). Qed.

Lemma load_read_only (t : Z) (fs : disk) :
  writable fs = false -> (load_tracked_stocks t fs).2 = fs.
Proof.
  intros Hw. unfold load_tracked_stocks, save_tracked_stocks. rewrite Hw.
  by destruct (tracked_stocks_file fs).
Qed.

Lemma load_nonempty (t : Z) (x : string) (fs : disk) :
  x ∈ (load_tracked_stocks t fs).1 -> (load_tracked_stocks t fs).2 = fs.
Proof.
  unfold load_tracked_stocks.
  destruct (tracked_stocks_file fs); simpl; [|done..].
  intros H. by apply elem_of_nil in H.
Qed.

Lemma save_read_only (t : Z) (l : list string) (fs : disk) :
  writable fs = false -> save_tracked_stocks t l fs = (false, fs).
Proof. intros Hw. unfold save_tracked_stocks. by rewrite Hw. Qed.

Lemma save_writable (t : Z) (l : list string) (fs : disk) :
  writable fs = true ->
  save_tracked_stocks t l fs
  = (true, {| tracked_stocks_file :=
                Document {| stocks := Some l; last_updated := t;
                            count := length l |};
              writable := true |}).
Proof. intros Hw. unfold save_tracked_stocks. by rewrite Hw. Qed.

(** The two functions after their [load_tracked_stocks]. *)
Lemma add_tracked_stock_loaded (t : Z) (symbol : string) (fs : disk) :
  add_tracked_stock upper t symbol fs
  = if py_in symbol (load_tracked_stocks t fs).1
    then (true, (load_tracked_stocks t fs).2)
    else save_tracked_stocks t ((load_tracked_stocks t fs).1 ++ [upper symbol])
           (load_tracked_stocks t fs).2.
Proof.
  unfold add_tracked_stock. destruct (load_tracked_stocks t fs) as [l fs1].
  cbn [fst snd]. by destruct (py_in symbol l).
Qed.

Lemma remove_tracked_stock_loaded (t : Z) (symbol : string) (fs : disk) :
  remove_tracked_stock upper t symbol fs
  = if py_in (upper symbol) (load_tracked_stocks t fs).1
    then match list_remove (upper symbol) (load_tracked_stocks t fs).1 with
         | Ok stocks' =>
             save_tracked_stocks t stocks' (load_tracked_stocks t fs).2
         | Raise _ => (false, (load_tracked_stocks t fs).2)
         end
    else (true, (load_tracked_stocks t fs).2).
Proof.
  unfold remove_tracked_stock. by destruct (load_tracked_stocks t fs) as [l fs1].
Qed.


End Persistence.

Section PersistenceRuns.

Import PersistenceManager.



(** The membership test of [add_tracked_stock] looks for the symbol as
    given while the list holds upper-case forms: a lower-case spelling of a
    tracked symbol is appended a second time, and the removal then takes
    out the first occurrence.  A lower-case entry, which only a file
    written by another program can hold, is found by the addition and not
    by the removal. *)
Example add_lowercase_duplicate :
  (load_tracked_stocks 2
     (add_tracked_stock Fixtures.ascii_upper 1 "aapl"
        (Fixtures.disk_with ["AAPL"; "MSFT"])).2).1
  = ["AAPL"; "MSFT"; "AAPL"]
  /\ (load_tracked_stocks 3
        (remove_tracked_stock Fixtures.ascii_upper 2 "aapl"
           (add_tracked_stock Fixtures.ascii_upper 1 "aapl"
              (Fixtures.disk_with ["AAPL"; "MSFT"])).2).2).1
     = ["MSFT"; "AAPL"]
  /\ (load_tracked_stocks 3
        (remove_tracked_stock Fixtures.ascii_upper 2 "aapl"
           (add_tracked_stock Fixtures.ascii_upper 1 "aapl"
              (Fixtures.disk_with ["aapl"])).2).2).1
     = ["aapl"].
Proof. by vm_compute. Qed.

End PersistenceRuns.

(** ** Technical indicators *)

Section Series.

Import AIAdvisor.

Lemma iloc_last_lookup {A} (xs : list A) :
  iloc_last xs = or_raise (xs !! pred (length xs)) IndexError.
Proof. unfold iloc_last. by rewrite last_lookup. Qed.

Lemma iloc_last_some {A} (xs : list A) :
  xs <> [] -> exists x, iloc_last xs = Ok x /\ xs !! pred (length xs) = Some x.
Proof.
  intros Hne. rewrite iloc_last_lookup.
  destruct (xs !! pred (length xs)) as [x|] eqn:Hx; [by exists x|].
  apply lookup_ge_None in Hx. destruct xs; [done|simpl in Hx; lia].
Qed.

Lemma length_rolling (w : nat) (agg : list float -> float) (xs : list float) :
  length (rolling w agg xs) = length xs.
Proof. unfold rolling. by rewrite length_fmap, length_seq. Qed.

Lemma length_diff (xs : list float) : length (diff xs) = length xs.
Proof.
  destruct xs as [|x tl]; [done|].
  change (diff (x :: tl))
    with (NaN :: zip_with (fun prev cur => fsub cur prev) (x :: tl) tl).
  rewrite !length_cons, length_zip_with, length_cons. lia.
Qed.

Lemma length_pct_change (xs : list float) : length (pct_change xs) = length xs.
Proof.
  destruct xs as [|x tl]; [done|].
  change (pct_change (x :: tl))
    with (NaN :: zip_with (fun prev cur => fsub (fdiv cur prev) (of_Z 1))
                   (x :: tl) tl).
  rewrite !length_cons, length_zip_with, length_cons. lia.
Qed.

Lemma length_where (c : float -> bool) (o : float) (xs : list float) :
  length (where_ c o xs) = length xs.
Proof. unfold where_. by rewrite length_fmap. Qed.

Lemma nonempty_length {A} (xs : list A) : (0 < length xs)%nat -> xs <> [].
Proof. destruct xs; simpl; [lia|done]. Qed.

(** The last row of a rolling aggregate. *)
Lemma rolling_last (w : nat) (agg : list float -> float) (xs : list float) :
  (0 < w)%nat -> xs <> [] ->
  rolling w agg xs !! pred (length xs)
  = Some (if (length xs <? w)%nat then NaN
          else agg (drop (length xs - w) xs)).
Proof.
  intros Hw Hne. unfold rolling.
  assert (Hlen : (0 < length xs)%nat) by (destruct xs; simpl; [done|lia]).
  rewrite list_lookup_fmap, lookup_seq_lt by lia. simpl.
  replace (pred (length xs) + 1)%nat with (length xs) by lia.
  destruct (length xs <? w)%nat eqn:Hlt; [done|].
  apply Nat.ltb_ge in Hlt.
  rewrite take_ge; [done|]. rewrite length_drop. lia.
Qed.

Lemma iloc_last_rolling (w : nat) (agg : list float -> float) (xs : list float)
    (v : float) :
  (0 < w)%nat -> xs <> [] ->
  rolling w agg xs !! pred (length (rolling w agg xs)) = Some v ->
  v = if (length xs <? w)%nat then NaN else agg (drop (length xs - w) xs).
Proof.
  intros Hw Hne. rewrite length_rolling, rolling_last by done. by intros [= <-].
Qed.

Lemma rolling_last_at (w : nat) (agg : list float -> float) (xs : list float)
    (i : nat) :
  (0 < w)%nat -> xs <> [] -> i = pred (length xs) ->
  rolling w agg xs !! i
  = Some (if (length xs <? w)%nat then NaN
          else agg (drop (length xs - w) xs)).
Proof. intros Hw Hne ->. by apply rolling_last. Qed.

End Series.

Section Positive.

Import AIAdvisor.

Local Open Scope Q_scope.

Lemma pos_cases (x : float) :
  pos x <-> match x with Fin a => 0 < a | PInf => True | _ => False end.
Proof.
  unfold pos, fgtb, fltb, zero, of_Z.
  destruct x as [a| | |]; try (split; [discriminate|tauto]).
  - apply Qltb_true.
  - done.
Qed.

Lemma pos_not_nan (x : float) : pos x -> is_nan x = false.
Proof. intros H. apply pos_cases in H. by destruct x. Qed.

Lemma pos_not_neg (x : float) : pos x -> fltb x zero = false.
Proof.
  intros H. apply pos_cases in H. destruct x as [a| | |]; try done.
  simpl. apply Qltb_false. unfold inject_Z. by apply Qlt_le_weak.
Qed.

(** A strict increase gives a positive difference. *)
Lemma pos_fsub (a b : float) : fltb a b = true -> pos (fsub b a).
Proof.
  intros H. apply pos_cases.
  destruct a as [a| | |], b as [b| | |]; try done. simpl in *.
  apply Qltb_true in H. rewrite !Qred_correct. lra.
Qed.

Lemma pos_fadd (a b : float) :
  fleb zero a = true -> pos b -> pos (fadd a b).
Proof.
  intros Ha Hb. apply pos_cases in Hb. apply pos_cases.
  destruct a as [a| | |], b as [b| | |]; try done. simpl in *.
  apply Qleb_true in Ha. unfold inject_Z in Ha. rewrite Qred_correct. lra.
Qed.

Lemma pos_nonneg (a : float) : pos a -> fleb zero a = true.
Proof.
  intros H. apply pos_cases in H. destruct a as [a| | |]; try done.
  simpl. apply Qleb_true. unfold inject_Z. by apply Qlt_le_weak.
Qed.

Lemma pos_fold_fadd (l : list float) (acc : float) :
  Forall pos l ->
  pos acc \/ (fleb zero acc = true /\ l <> []) ->
  pos (fold_left fadd l acc).
Proof.
  intros Hl. revert acc. induction Hl as [|x l Hx Hl IH]; intros acc Hacc.
  - simpl. by destruct Hacc as [?|[_ ?]].
  - simpl. apply IH. left. apply pos_fadd; [|done].
    destruct Hacc as [?|[? _]]; [by apply pos_nonneg|done].
Qed.

Lemma pos_fsum (l : list float) : Forall pos l -> l <> [] -> pos (fsum l).
Proof.
  intros Hl Hne. unfold fsum. apply pos_fold_fadd; [done|]. right.
  split; [reflexivity|done].
Qed.

Lemma pos_fdiv_nat (x : float) (k : nat) :
  pos x -> (0 < k)%nat -> pos (fdiv x (of_nat k)).
Proof.
  intros Hx Hk. apply pos_cases in Hx. apply pos_cases.
  assert (Hq : 0 < inject_Z (Z.of_nat k)).
  { change 0 with (inject_Z 0). rewrite <- Zlt_Qlt. lia. }
  destruct x as [a| | |]; try done; unfold of_nat, of_Z, fdiv.
  - destruct (Qeqb (inject_Z (Z.of_nat k)) 0) eqn:Hz.
    + apply Qeqb_true in Hz. rewrite Hz in Hq. by apply Qlt_irrefl in Hq.
    + rewrite Qred_correct. apply Qlt_shift_div_l; [done|]. lra.
  - destruct (Qltb (inject_Z (Z.of_nat k)) 0) eqn:Hz; [|done].
    apply Qltb_true in Hz. lra.
Qed.

Lemma existsb_is_nan_pos (l : list float) :
  Forall pos l -> existsb is_nan l = false.
Proof.
  induction 1 as [|x l Hx _ IH]; [done|]. simpl.
  by rewrite (pos_not_nan x Hx), IH.
Qed.

Lemma pos_mean_agg (l : list float) :
  Forall pos l -> l <> [] -> pos (mean_agg l).
Proof.
  intros Hl Hne. unfold mean_agg. rewrite existsb_is_nan_pos by done.
  apply pos_fdiv_nat; [by apply pos_fsum|].
  destruct l; simpl; [done|lia].
Qed.

(** Dividing a positive average gain by a zero average loss. *)
Lemma fdiv_pos_zero (g : float) : pos g -> fdiv g (Fin 0) = PInf.
Proof.
  intros H. apply pos_cases in H. destruct g as [a| | |]; try done.
  unfold fdiv. change (Qeqb 0 0) with true. cbv iota.
  destruct (Qcompare_spec 0 a) as [Heq|_|Hgt]; [|done|].
  - rewrite <- Heq in H. by apply Qlt_irrefl in H.
  - lra.
Qed.

Lemma increasing_diffs (c0 : float) (tl : list float) :
  increasing (c0 :: tl) = true ->
  Forall pos (zip_with (fun prev cur => fsub cur prev) (c0 :: tl) tl).
Proof.
  revert c0. induction tl as [|c1 tl IH]; intros c0 Hinc; [constructor|].
  simpl in Hinc. apply andb_true_iff in Hinc as [Hlt Hinc].
  change (zip_with (fun prev cur => fsub cur prev) (c0 :: c1 :: tl) (c1 :: tl))
    with (fsub c1 c0
          :: zip_with (fun prev cur => fsub cur prev) (c1 :: tl) tl).
  constructor; [by apply pos_fsub|by apply IH].
Qed.

Lemma where_gain_pos (l : list float) :
  Forall pos l -> where_ (fun d => fgtb d zero) zero l = l.
Proof.
  induction 1 as [|x l Hx _ IH]; [done|].
  unfold where_ in *. rewrite fmap_cons, IH. unfold pos in Hx. by rewrite Hx.
Qed.

Lemma where_loss_pos (l : list float) :
  Forall pos l ->
  fneg <$> where_ (fun d => fltb d zero) zero l
  = replicate (length l) (fneg zero).
Proof.
  induction 1 as [|x l Hx _ IH]; [done|].
  unfold where_ in *. rewrite !fmap_cons, IH.
  by rewrite (pos_not_neg x Hx).
Qed.

Lemma rising_window_rsi (close : list float) :
  (15 <= length close)%nat -> increasing close = true ->
  let delta := diff close in
  let gain := rolling 14 mean_agg (where_ (fun d => fgtb d zero) zero delta) in
  let loss :=
    rolling 14 mean_agg (fneg <$> where_ (fun d => fltb d zero) zero delta) in
  let rs := zip_with fdiv gain loss in
  let rsi :=
    (fun r => fsub (of_Z 100) (fdiv (of_Z 100) (fadd (of_Z 1) r))) <$> rs in
  rsi <> [] /\ iloc_last rsi = Ok (of_Z 100).
Proof.
  intros Hlen Hinc delta gain loss rs rsi.
  destruct close as [|c0 tl]; [simpl in Hlen; lia|].
  pose proof (increasing_diffs c0 tl Hinc) as Hds.
  set (ds := zip_with (fun prev cur => fsub cur prev) (c0 :: tl) tl) in *.
  assert (Hn : length ds = length tl).
  { subst ds. rewrite length_zip_with, length_cons. lia. }
  rewrite length_cons in Hlen.
  assert (Hdelta : delta = NaN :: ds) by done.
  assert (Hgains : where_ (fun d => fgtb d zero) zero delta = zero :: ds).
  { rewrite Hdelta. unfold where_. rewrite fmap_cons.
    change (fgtb NaN zero) with false. cbv iota.
    f_equal. by apply where_gain_pos. }
  assert (Hlosses : fneg <$> where_ (fun d => fltb d zero) zero delta
                    = replicate (S (length ds)) (fneg zero)).
  { rewrite Hdelta. unfold where_. rewrite !fmap_cons.
    change (fltb NaN zero) with false. cbv iota. simpl replicate.
    f_equal. by apply where_loss_pos. }
  assert (Hrsi_len : length rsi = S (length ds)).
  { subst rsi rs gain loss. rewrite length_fmap, length_zip_with, !length_rolling.
    rewrite Hgains, Hlosses, length_replicate, length_cons. lia. }
  split; [apply nonempty_length; lia|].
  rewrite iloc_last_lookup, Hrsi_len. simpl pred.
  subst rsi rs gain loss.
  rewrite list_lookup_fmap, lookup_zip_with.
  rewrite Hgains, Hlosses.
  rewrite (rolling_last_at 14 mean_agg (zero :: ds) (length ds)); [|lia|done|done].
  rewrite (rolling_last_at 14 mean_agg (replicate (S (length ds)) (fneg zero)) (length ds));
    [|lia|done|by rewrite length_replicate].
  rewrite length_replicate, length_cons.
  destruct (Nat.ltb_spec (S (length ds)) 14) as [?|_]; [lia|].
  rewrite drop_replicate.
  replace (S (length ds) - (S (length ds) - 14))%nat with 14%nat by lia.
  replace (S (length ds) - 14)%nat with (S (length ds - 14)) by lia.
  rewrite skipn_cons.
  change (mean_agg (replicate 14 (fneg zero))) with (Fin 0).
  cbv [fmap option_fmap option_map mbind option_bind or_raise].
  rewrite fdiv_pos_zero; [reflexivity|].
  apply pos_mean_agg; [by apply Forall_drop|].
  apply nonempty_length. rewrite length_drop. lia.
Qed.

End Positive.

Section IndicatorClaims.

Import AIAdvisor.

Variable sqrt : float -> float.

#[local] Arguments fgtb : simpl never.
#[local] Arguments fltb : simpl never.
#[local] Arguments fdiv : simpl never.
#[local] Arguments fmul : simpl never.
#[local] Arguments fsub : simpl never.
#[local] Arguments of_Z : simpl never.
#[local] Arguments of_Q : simpl never.

Lemma fdiv_nan_r (x : float) : fdiv x NaN = NaN.
Proof. by destruct x. Qed.

Lemma iloc_neg_some {A} (k : nat) (xs : list A) :
  (0 < k)%nat -> (k <= length xs)%nat -> exists x, iloc_neg k xs = Ok x.
Proof.
  intros Hk Hlen. unfold iloc_neg.
  destruct (Nat.ltb_spec (length xs) k) as [?|_]; [lia|].
  destruct (xs !! (length xs - k)%nat) as [x|] eqn:Hx; [by exists x|].
  apply lookup_ge_None in Hx. lia.
Qed.

(** A series derived from a non-empty frame is not empty. *)
Ltac series_nonempty :=
  apply nonempty_length;
  repeat first [ rewrite length_rolling | rewrite length_fmap
               | rewrite length_zip_with | rewrite length_pct_change
               | rewrite length_diff | rewrite length_where ];
  lia.

(** Every [.iloc[-1]] of the function succeeds on a non-empty frame; name
    the value and keep where it sits in its series. *)
Ltac run_iloc_last :=
  repeat match goal with
  | |- context [iloc_last ?X] =>
      let v := fresh "v" in
      let Hv := fresh "Hv" in
      destruct (iloc_last_some X) as (v & -> & Hv); [series_nonempty|]
  end.

Ltac run_iloc_neg :=
  repeat match goal with
  | |- context [iloc_neg ?k ?X] =>
      let v := fresh "v" in
      destruct (iloc_neg_some k X) as (v & ->);
      [lia | rewrite ?length_fmap; lia |]
  end.

(** C8.  For a strictly increasing close series of 15 bars or more the
    function completes (its dictionary is filled, which the handler of an
    exception would have left empty): the average loss is zero, the
    division of the average gain by it gives an infinity instead of
    raising, and the RSI is 100 with the overbought signal. *)
Theorem rsi_of_rising_series (data : list bar) :
  (15 <= length data)%nat ->
  increasing (Close <$> data) = true ->
  _calculate_technical_indicators sqrt data !! "rsi" = Some (VFloat (of_Z 100))
  /\ _calculate_technical_indicators sqrt data !! "rsi_signal"
     = Some (VStr "overbought").
Proof.
  intros Hlen Hinc.
  pose proof (rising_window_rsi (Close <$> data)) as Hrsi.
  rewrite length_fmap in Hrsi. specialize (Hrsi Hlen Hinc).
  cbv zeta in Hrsi. destruct Hrsi as [Hne Hrsi].
  unfold _calculate_technical_indicators. cbv zeta.
  rewrite (bool_decide_eq_false_2 _ Hne), Hrsi.
  run_iloc_last. run_iloc_neg.
  rewrite (leb_correct 10 (length data)), (leb_correct 5 (length data)),
    (leb_correct 14 (length data)) by lia.
  change (fgtb (of_Z 100) (of_Z 70)) with true.
  destruct (20 <=? length data)%nat; simpl;
    (split; [by rewrite !lookup_insert_ne, lookup_insert_eq by done
            |by rewrite !lookup_insert_ne, lookup_insert_eq by done]).
Qed.

(** Which keys a non-empty frame gets, by its length.  The moving
    averages and the RSI are left out below their window; the volume
    ratio, the volatility and the two levels are always written, as NaN
    below theirs. *)
Lemma short_series_keys (data : list bar) :
  data <> [] ->
  ((length data < 20)%nat ->
     _calculate_technical_indicators sqrt data !! "ma20" = None
     /\ _calculate_technical_indicators sqrt data !! "resistance_level"
        = Some (VFloat NaN)
     /\ _calculate_technical_indicators sqrt data !! "support_level"
        = Some (VFloat NaN))
  /\ ((length data < 14)%nat ->
     _calculate_technical_indicators sqrt data !! "rsi" = None)
  /\ ((length data < 10)%nat ->
     _calculate_technical_indicators sqrt data !! "ma10" = None
     /\ _calculate_technical_indicators sqrt data !! "volume_ratio"
        = Some (VFloat NaN)
     /\ _calculate_technical_indicators sqrt data !! "volatility"
        = Some (VFloat NaN))
  /\ ((5 <= length data)%nat ->
     is_Some (_calculate_technical_indicators sqrt data !! "ma5"))
  /\ ((10 <= length data)%nat ->
     is_Some (_calculate_technical_indicators sqrt data !! "ma10")).
Proof.
  intros Hne.
  assert (Hpos : (0 < length data)%nat) by (destruct data; simpl; [done|lia]).
  unfold _calculate_technical_indicators. cbv zeta.
  rewrite bool_decide_eq_false_2 by series_nonempty.
  run_iloc_last.
  apply iloc_last_rolling in Hv, Hv0, Hv1, Hv4; try lia; try series_nonempty.
  rewrite length_fmap in Hv, Hv0, Hv4.
  rewrite length_pct_change, length_fmap in Hv1.
  repeat split; intros;
    repeat match goal with
    | |- context [(?k <=? length data)%nat] =>
        destruct (Nat.leb_spec k (length data)); try lia
    | H : context [(length data <? ?k)%nat] |- _ =>
        destruct (Nat.ltb_spec (length data) k); try lia
    end;
    run_iloc_neg;
    subst; simpl;
    repeat match goal with
    | |- context [if ?c then <[_ := _]> _ else _] => destruct c
    end;
    rewrite ?fdiv_nan_r;
    try change (fmul NaN (of_Z 100)) with NaN;
    rewrite ?lookup_insert_ne by done;
    first [ by rewrite lookup_insert_eq | by rewrite lookup_empty ].
Qed.

End IndicatorClaims.

Section IndicatorRuns.

Import AIAdvisor.

Lemma rsi_of_rising_series_witness :
  _calculate_technical_indicators Fixtures.no_sqrt (Fixtures.rising 15) !! "rsi"
  = Some (VFloat (of_Z 100))
  /\ _calculate_technical_indicators Fixtures.no_sqrt (Fixtures.rising 15)
       !! "rsi_signal"
     = Some (VStr "overbought").
Proof.
  apply (rsi_of_rising_series Fixtures.no_sqrt (Fixtures.rising 15)).
  - vm_compute. lia.
  - vm_compute. reflexivity.
Defined.

(** C4, at the failing input: twelve bars.  The moving averages over 5
    and 10 bars are there and the one over 20 bars and the RSI are not,
    but both levels are in the dictionary, holding NaN; so are the volume
    ratio and the volatility of a series of nine bars. *)
Theorem twelve_bars_keep_nan_levels :
  length (Fixtures.rising 12) = 12%nat
  /\ is_Some (_calculate_technical_indicators Fixtures.no_sqrt
                (Fixtures.rising 12) !! "ma5")
  /\ is_Some (_calculate_technical_indicators Fixtures.no_sqrt
                (Fixtures.rising 12) !! "ma10")
  /\ _calculate_technical_indicators Fixtures.no_sqrt (Fixtures.rising 12)
       !! "ma20" = None
  /\ _calculate_technical_indicators Fixtures.no_sqrt (Fixtures.rising 12)
       !! "rsi" = None
  /\ _calculate_technical_indicators Fixtures.no_sqrt (Fixtures.rising 12)
       !! "support_level" = Some (VFloat NaN)
  /\ _calculate_technical_indicators Fixtures.no_sqrt (Fixtures.rising 12)
       !! "resistance_level" = Some (VFloat NaN)
  /\ _calculate_technical_indicators Fixtures.no_sqrt (Fixtures.rising 9)
       !! "volume_ratio" = Some (VFloat NaN)
  /\ _calculate_technical_indicators Fixtures.no_sqrt (Fixtures.rising 9)
       !! "volatility" = Some (VFloat NaN).
Proof. vm_compute. repeat split; eauto. Qed.

End IndicatorRuns.

(** * Further properties *)

Import MoreProps.

(** ** The cache and the providers *)

Section CacheMore.

Lemma result_bind_inv {A B} (r : result A) (f : A -> result B) (b : B) :
  r ≫= f = Ok b -> exists a, r = Ok a /\ f a = Ok b.
Proof. destruct r as [a|x]; [by exists a|done]. Qed.

Lemma yfinance_stamp (up : upstream) (now : Z) (sym : string) (q : quote) :
  _get_yfinance_data up now sym = Some q -> timestamp q = now /\ symbol q = sym.
Proof.
  unfold _get_yfinance_data, try_except.
  destruct (_ ≫= _) as [o|] eqn:Hbody; [|done]. intros ->.
  apply result_bind_inv in Hbody as (hist & _ & Hbody).
  destruct (bool_decide (hist = [])); [done|].
  apply result_bind_inv in Hbody as (cur & _ & Hbody).
  apply result_bind_inv in Hbody as (prev & _ & Hbody).
  apply result_bind_inv in Hbody as (pct & _ & Hbody).
  by injection Hbody as <-.
Qed.

Lemma alpha_vantage_stamp (up : upstream) (now : Z) (sym : string) (q : quote) :
  _get_alpha_vantage_data up now sym = Some q ->
  timestamp q = now /\ symbol q = sym.
Proof.
  unfold _get_alpha_vantage_data, try_except.
  destruct (alpha_vantage up sym) as [|st body]; [done|].
  destruct (negb (st =? 200)); [done|].
  destruct body as [g|]; [|done].
  destruct (_ ≫= _) as [o|] eqn:Hbody; [|done]. intros ->.
  repeat (apply result_bind_inv in Hbody as (? & _ & Hbody)).
  by injection Hbody as <-.
Qed.

(** X1.  The validity test sees the age of an entry only up to whole days:
    moving the clock by any number of days, forwards or backwards, does not
    change its answer. *)
Theorem cache_validity_periodic (self : manager) (now : Z) (key : string) (k : Z) :
  _is_cache_valid self (now + k * day) key = _is_cache_valid self now key.
Proof.
  unfold _is_cache_valid. destruct (cache self !! key) as [e|]; [|done].
  f_equal. unfold timedelta_seconds, day, second.
  replace (now + k * (86400 * 1000000) - ce_timestamp e)
    with (now - ce_timestamp e + (k * 86400) * 1000000) by lia.
  rewrite Z.div_add by lia. apply Z.mod_add. lia.
Qed.

(** X2.  An entry whose age is between the cache duration and one day is
    not served: the providers are asked, a quote that comes back is stamped
    with the time of the call and replaces the entry, and when both
    providers fail the answer is [None] and the old entry stays. *)
Theorem expired_entry_not_served (up : upstream) (now : Z) (sym : string)
    (self : manager) (e : cache_entry) :
  cache self !! cache_key sym = Some e ->
  0 <= cache_duration self ->
  cache_duration self * second <= now - ce_timestamp e < day ->
  Primary sym ∈ (get_stock_data up now sym self).2
  /\ (forall q, (get_stock_data up now sym self).1.1 = Some q ->
        timestamp q = now
        /\ cache (get_stock_data up now sym self).1.2 !! cache_key sym
           = Some {| ce_data := q; ce_timestamp := now |})
  /\ ((get_stock_data up now sym self).1.1 = None ->
      (get_stock_data up now sym self).1.2 = self).
Proof.
  intros He Httl Hage.
  destruct (expired_entry_refetched up now sym self e He Httl Hage)
    as (Hv & Hin & _).
  split; [done|]. unfold get_stock_data. rewrite Hv.
  destruct (_get_yfinance_data up now sym) as [d|] eqn:Hd.
  - simpl. split; [|done]. intros q [= ->].
    split; [by apply (yfinance_stamp up now sym)|apply lookup_insert_eq].
  - destruct (_get_alpha_vantage_data up now sym) as [d|] eqn:Hd'; simpl.
    + split; [|done]. intros q [= ->].
      split; [by apply (alpha_vantage_stamp up now sym)|apply lookup_insert_eq].
    + by split.
Qed.

Lemma expired_entry_not_served_witness :
  Primary "AAPL"
  ∈ (get_stock_data (Fixtures.primary_at 103) (90 * second) "AAPL"
       Fixtures.warm).2.
Proof.
  refine (proj1 (expired_entry_not_served (Fixtures.primary_at 103)
            (90 * second) "AAPL" Fixtures.warm
            {| ce_data := Fixtures.old_quote; ce_timestamp := 0 |} _ _ _)).
  - vm_compute. reflexivity.
  - vm_compute. discriminate.
  - vm_compute. split; [discriminate|reflexivity].
Defined.

(** X3.  A call touches the cache under the key of its own symbol only,
    keeps the duration, changes nothing when it answers [None], and
    whenever it answers with a quote that quote is what the cache holds
    under the key afterwards. *)
Theorem get_stock_data_frame (up : upstream) (now : Z) (sym : string)
    (self : manager) :
  cache_duration (get_stock_data up now sym self).1.2 = cache_duration self
  /\ (forall k, k <> cache_key sym ->
        cache (get_stock_data up now sym self).1.2 !! k = cache self !! k)
  /\ ((get_stock_data up now sym self).1.1 = None ->
        (get_stock_data up now sym self).1.2 = self)
  /\ (forall q, (get_stock_data up now sym self).1.1 = Some q ->
        ce_data <$> cache (get_stock_data up now sym self).1.2 !! cache_key sym
        = Some q).
Proof.
  unfold get_stock_data.
  destruct (_is_cache_valid self now (cache_key sym)) eqn:Hv.
  - simpl. repeat split; try done.
    intros q. destruct (cache self !! cache_key sym) as [e|]; [|done].
    cbn. by intros [= <-].
  - destruct (_get_yfinance_data up now sym) as [d|];
      [|destruct (_get_alpha_vantage_data up now sym) as [d|]]; simpl;
      repeat split; try done;
      try (intros k Hk; by rewrite lookup_insert_ne);
      intros q [= <-]; by rewrite lookup_insert_eq.
Qed.

Lemma length_append (s t : string) :
  String.length (s +:+ t) = (String.length s + String.length t)%nat.
Proof. induction s as [|c s IH]; simpl; [done|by rewrite IH]. Qed.

Lemma append_suffix_inj (t s1 s2 : string) : s1 +:+ t = s2 +:+ t -> s1 = s2.
Proof.
  revert s2. induction s1 as [|c s1 IH]; intros [|c' s2] H.
  - done.
  - apply (f_equal String.length) in H.
    rewrite !length_append in H. simpl in H. lia.
  - apply (f_equal String.length) in H.
    rewrite !length_append in H. simpl in H. lia.
  - change (String c (s1 +:+ t) = String c' (s2 +:+ t)) in H.
    injection H as -> H. f_equal. by apply IH.
Qed.

(** X4.  Keys of different symbols differ, so a cache that holds every
    quote under the key of its own symbol (as the empty cache does) stays
    that way, and the quote returned for a symbol always names that
    symbol. *)
Theorem returned_quote_names_symbol (up : upstream) (now : Z) (sym : string)
    (self : manager) :
  cache_keyed self ->
  cache_keyed (get_stock_data up now sym self).1.2
  /\ (forall q, (get_stock_data up now sym self).1.1 = Some q -> symbol q = sym).
Proof.
  intros Hinv. unfold get_stock_data.
  destruct (_is_cache_valid self now (cache_key sym)) eqn:Hv.
  - simpl. split; [done|]. intros q.
    destruct (cache self !! cache_key sym) as [e|] eqn:He; [|done].
    cbn. intros [= <-]. by apply Hinv.
  - assert (Hstore : forall d, symbol d = sym ->
              cache_keyed (_update_cache self now (cache_key sym) d)).
    { intros d Hd s e. unfold _update_cache; simpl.
      rewrite lookup_insert. case_decide as Hk.
      - intros [= <-]. simpl. rewrite Hd.
        by apply (append_suffix_inj "_current").
      - apply Hinv. }
    destruct (_get_yfinance_data up now sym) as [d|] eqn:Hd.
    + destruct (yfinance_stamp up now sym d Hd) as [_ Hs]. simpl.
      split; [by apply Hstore|]. by intros q [= <-].
    + destruct (_get_alpha_vantage_data up now sym) as [d|] eqn:Hd'; simpl.
      * destruct (alpha_vantage_stamp up now sym d Hd') as [_ Hs].
        split; [by apply Hstore|]. by intros q [= <-].
      * done.
Qed.

Lemma returned_quote_names_symbol_witness :
  symbol Fixtures.fresh_quote = "AAPL".
Proof.
  refine (proj2 (returned_quote_names_symbol (Fixtures.primary_at 103) 0
                   "AAPL" init _) Fixtures.fresh_quote _).
  - intros s e. unfold init; simpl. by rewrite lookup_empty.
  - vm_compute. reflexivity.
Defined.

End CacheMore.
Section ProvidersMore.

(** X5.  The fallback yields a quote exactly when the reply has status 200
    and a ["Global Quote"] all of whose eight fields are there and parse;
    the quote then repeats these fields.  Any other reply, or an error,
    gives [None]. *)
Theorem fallback_quote_iff (up : upstream) (now : Z) (sym : string) (q : quote) :
  _get_alpha_vantage_data up now sym = Some q
  <-> exists g,
        alpha_vantage up sym = AvReply 200 (Some g)
        /\ gq_price g = Some (current_price q)
        /\ gq_previous_close g = Some (previous_close q)
        /\ gq_change g = Some (change q)
        /\ gq_change_percent g = Some (change_percent q)
        /\ gq_open g = Some (open q)
        /\ gq_high g = Some (high q)
        /\ gq_low g = Some (low q)
        /\ gq_volume g = Some (volume q)
        /\ symbol q = sym /\ timestamp q = now /\ source q = "alpha_vantage".
Proof.
  unfold _get_alpha_vantage_data. split.
  - destruct (alpha_vantage up sym) as [|st body]; [done|].
    destruct (Z.eqb_spec st 200) as [->|?]; [|done]. simpl.
    destruct body as [g|]; [|done].
    destruct g as [[?|] [?|] [?|] [?|] [?|] [?|] [?|] [?|]]; cbn; try done.
    intros [= <-]. cbn. eexists. by repeat split.
  - intros (g & -> & H1 & H2 & H3 & H4 & H5 & H6 & H7 & H8 & Hs & Ht & Hsrc).
    simpl. rewrite H1, H2, H3, H4, H5, H6, H7, H8. cbn.
    destruct q; simpl in *. by subst.
Qed.

End ProvidersMore.
(** ** Histories *)

Section HistoryMore.

Import History.

Lemma hist_key_not_quote_key (s s' : string) :
  hist_key s "1mo" <> cache_key s'.
Proof.
  unfold hist_key, cache_key. intros H.
  change (s +:+ "_hist_1mo" = s' +:+ "_current") in H.
  pose proof (f_equal String.length H) as Hlen.
  rewrite !length_append in Hlen. simpl in Hlen.
  pose proof (append_correct2 s "_hist_1mo" 8) as H1.
  pose proof (append_correct2 s' "_current" 7) as H2.
  rewrite H in H1.
  replace (8 + String.length s)%nat with (7 + String.length s')%nat in H1 by lia.
  rewrite <- H2 in H1. discriminate.
Qed.

(** X6.  The key of a one-month history is never the key of a quote.  On a
    miss, [get_historical_data] asks the provider once; an error or an
    empty frame gives [None] and is not stored; a non-empty frame is
    returned and stored, and any call for the same symbol and period less
    than the cache duration later gets it back without asking the
    provider. *)
Theorem historical_data_cached (up : history_upstream) (now : Z)
    (sym period : string) (self : hist_manager) :
  (forall s s', hist_key s "1mo" <> cache_key s')
  /\ (hist_is_cache_valid self now (hist_key sym period) = false ->
      (history up sym period = YfError \/ history up sym period = YfHistory [] ->
       get_historical_data up now sym period self = (None, self, 1%nat))
      /\ (forall hist,
            history up sym period = YfHistory hist -> hist <> [] ->
            get_historical_data up now sym period self
            = (Some hist, hist_update_cache self now (hist_key sym period) hist,
               1%nat)
            /\ forall up' later,
                 0 <= later - now < hist_cache_duration self * second ->
                 get_historical_data up' later sym period
                   (hist_update_cache self now (hist_key sym period) hist)
                 = (Some hist,
                    hist_update_cache self now (hist_key sym period) hist,
                    0%nat))).
Proof.
  split; [exact hist_key_not_quote_key|].
  intros Hmiss. unfold get_historical_data at 1 2. rewrite Hmiss. split.
  - by intros [-> | ->].
  - intros hist -> Hne. rewrite bool_decide_eq_false_2 by done. simpl.
    split; [done|]. intros up' later Hage.
    unfold get_historical_data, hist_is_cache_valid. simpl.
    rewrite lookup_insert_eq. simpl.
    assert (Hv : (timedelta_seconds (later - now) <? hist_cache_duration self)
                 = true).
    { apply Z.ltb_lt. by apply timedelta_seconds_fresh. }
    by rewrite Hv.
Qed.

Lemma historical_data_cached_witness :
  get_historical_data (MoreFixtures.history_of (Fixtures.rising 3)) 0 "AAPL"
    "1mo" MoreFixtures.no_history
  = (Some (Fixtures.rising 3),
     hist_update_cache MoreFixtures.no_history 0 (hist_key "AAPL" "1mo")
       (Fixtures.rising 3),
     1%nat).
Proof.
  refine (proj1 (proj2 (proj2 (historical_data_cached
            (MoreFixtures.history_of (Fixtures.rising 3)) 0 "AAPL" "1mo"
            MoreFixtures.no_history) _) (Fixtures.rising 3) _ _)).
  - reflexivity.
  - reflexivity.
  - vm_compute. discriminate.
Defined.

End HistoryMore.
(** ** The monitor *)

Section MonitorMore.

Import StockBot.

#[local] Arguments fneb : simpl never.
#[local] Arguments fgeb : simpl never.
#[local] Arguments fabs : simpl never.
#[local] Arguments fmul : simpl never.
#[local] Arguments fdiv : simpl never.
#[local] Arguments fsub : simpl never.
#[local] Arguments of_Z : simpl never.

Lemma get_stock_data_keeps (up : upstream) (t : Z) (sym : string)
    (self : manager) :
  cache_duration (get_stock_data up t sym self).1.2 = cache_duration self
  /\ forall k, k <> cache_key sym ->
       cache (get_stock_data up t sym self).1.2 !! k = cache self !! k.
Proof.
  unfold get_stock_data.
  destruct (_is_cache_valid self t (cache_key sym)); [done|].
  destruct (_get_yfinance_data up t sym) as [d|];
    [|destruct (_get_alpha_vantage_data up t sym) as [d|]]; simpl;
    split; try done; intros k Hk; by rewrite lookup_insert_ne.
Qed.

(** What the loop body leaves alone. *)
Lemma monitor_symbol_keeps (e : env) (sym : string) (self : bot) :
  tracked_stocks (monitor_symbol e sym self).1.2 = tracked_stocks self
  /\ cache_duration (stock_manager (monitor_symbol e sym self).1.2)
     = cache_duration (stock_manager self)
  /\ (forall s, s <> sym ->
        last_prices (monitor_symbol e sym self).1.2 !! s
        = last_prices self !! s
        /\ cache (stock_manager (monitor_symbol e sym self).1.2)
             !! cache_key s
           = cache (stock_manager self) !! cache_key s).
Proof.
  pose proof (get_stock_data_keeps (providers e) (now e) sym
                (stock_manager self)) as [Hdur Hkeys].
  assert (Hk : forall s, s <> sym -> cache_key s <> cache_key sym).
  { intros s Hs Heq. apply Hs. by apply (append_suffix_inj "_current"). }
  destruct (get_stock_data (providers e) (now e) sym (stock_manager self))
    as [[[q|] m] calls] eqn:Hget; simpl in Hdur, Hkeys.
  - rewrite (monitor_symbol_fetched e sym self q m calls Hget).
    destruct (_ && _); [destruct (delivers e sym)|]; simpl;
      (split; [done|]; split; [done|]; intros s Hs;
       rewrite ?lookup_insert_ne by done; split; [done|by apply Hkeys, Hk]).
  - rewrite (monitor_symbol_none e sym self m calls Hget). simpl.
    by rewrite (get_stock_data_none _ _ _ _ _ _ Hget) in Hdur.
Qed.

(** X7.  A tick never changes the list of tracked symbols or the cache
    duration, and it leaves the baseline and the cached quote of every
    symbol that is not tracked as they were. *)
Theorem tick_leaves_untracked_alone (e : env) (self : bot) :
  tracked_stocks (price_monitor e self).1 = tracked_stocks self
  /\ cache_duration (stock_manager (price_monitor e self).1)
     = cache_duration (stock_manager self)
  /\ (forall s, s ∉ tracked_stocks self ->
        last_prices (price_monitor e self).1 !! s = last_prices self !! s
        /\ cache (stock_manager (price_monitor e self).1) !! cache_key s
           = cache (stock_manager self) !! cache_key s).
Proof.
  assert (Hloop : forall symbols b,
    tracked_stocks (monitor_loop e symbols b).1.2 = tracked_stocks b
    /\ cache_duration (stock_manager (monitor_loop e symbols b).1.2)
       = cache_duration (stock_manager b)
    /\ (forall s, s ∉ symbols ->
          last_prices (monitor_loop e symbols b).1.2 !! s = last_prices b !! s
          /\ cache (stock_manager (monitor_loop e symbols b).1.2) !! cache_key s
             = cache (stock_manager b) !! cache_key s)).
  { induction symbols as [|sym rest IH]; intros b; [done|].
    destruct (monitor_symbol_keeps e sym b) as (Ht & Hd & Hs).
    simpl. destruct (monitor_symbol e sym b) as [[[[]|x] b1] evs] eqn:Hstep;
      simpl in Ht, Hd, Hs.
    - destruct (IH b1) as (Ht' & Hd' & Hs').
      destruct (monitor_loop e rest b1) as [[r b2] evs']; simpl in *.
      split; [congruence|]. split; [congruence|].
      intros s Hin. apply not_elem_of_cons in Hin as [Hne Hin].
      destruct (Hs' s Hin) as [-> ->]. by apply Hs.
    - simpl. split; [done|]. split; [done|].
      intros s Hin. apply not_elem_of_cons in Hin as [Hne _]. by apply Hs. }
  unfold price_monitor. case_bool_decide as Hnil; [done|].
  specialize (Hloop (tracked_stocks self) self).
  by destruct (monitor_loop e (tracked_stocks self) self) as [[r b] evs].
Qed.

(** The alerts of the loop body. *)
Lemma monitor_symbol_alerts (e : env) (sym : string) (self : bot)
    (s : string) (q : quote) (pct : float) :
  Alert s q pct ∈ (monitor_symbol e sym self).2 ->
  s = sym /\ fgeb (fabs pct) (of_Z 2) = true
  /\ (exists lp, last_prices self !! sym = Some lp /\ fneb lp zero = true
                 /\ percent_change (current_price q) lp = Ok pct).
Proof.
  destruct (get_stock_data (providers e) (now e) sym (stock_manager self))
    as [[[d|] m] calls] eqn:Hget.
  - rewrite (monitor_symbol_fetched e sym self d m calls Hget).
    destruct (fneb _ zero && _) eqn:Hc.
    + apply andb_true_iff in Hc as [Hz Hthr].
      assert (Hin : Alert s q pct
                    ∈ (Fetch <$> calls)
                      ++ [Alert sym d
                            (fmul (fdiv (fsub (current_price d)
                               (default (current_price d) (last_prices self !! sym)))
                               (default (current_price d) (last_prices self !! sym)))
                               (of_Z 100))] ->
                    s = sym /\ fgeb (fabs pct) (of_Z 2) = true
                    /\ (exists lp, last_prices self !! sym = Some lp
                                   /\ fneb lp zero = true
                                   /\ percent_change (current_price q) lp = Ok pct)).
      { rewrite elem_of_app, list_elem_of_singleton.
        intros [Hin | [= -> -> ->]]; [by apply alert_not_fetch in Hin|].
        split; [done|]. split; [done|].
        destruct (last_prices self !! sym) as [lp|] eqn:Hlp; simpl in *.
        - exists lp. split; [done|]. split; [done|].
          by apply percent_change_guarded.
        - by rewrite no_change_no_alert in Hthr. }
      by destruct (delivers e sym).
    + simpl. intros Hin. by apply alert_not_fetch in Hin.
  - rewrite (monitor_symbol_none e sym self m calls Hget). simpl.
    intros Hin. by apply alert_not_fetch in Hin.
Qed.

Lemma monitor_symbol_alert_count (e : env) (sym : string) (self : bot) :
  (length (filter (fun ev => is_alert ev = true) (monitor_symbol e sym self).2)
   <= 1)%nat.
Proof.
  assert (Hf : forall calls,
    filter (fun ev => is_alert ev = true) (Fetch <$> calls) = []).
  { induction calls as [|c calls IH]; [done|].
    rewrite fmap_cons, filter_cons_False by done. exact IH. }
  destruct (get_stock_data (providers e) (now e) sym (stock_manager self))
    as [[[d|] m] calls] eqn:Hget.
  - rewrite (monitor_symbol_fetched e sym self d m calls Hget).
    destruct (_ && _); [destruct (delivers e sym)|]; simpl;
      rewrite ?filter_app, Hf; simpl; lia.
  - rewrite (monitor_symbol_none e sym self m calls Hget). simpl.
    rewrite Hf. simpl. lia.
Qed.

(** X8.  Every alert of a tick is for a tracked symbol and carries a
    percentage change of at least 2 in absolute value (so never NaN), and a
    tick raises at most one alert for each entry of the tracked list. *)
Theorem tick_alerts_at_threshold (e : env) (self : bot) :
  (forall s q pct,
      Alert s q pct ∈ (price_monitor e self).2 ->
      s ∈ tracked_stocks self
      /\ fgeb (fabs pct) (of_Z 2) = true
      /\ is_nan pct = false)
  /\ (length (filter (fun ev => is_alert ev = true) (price_monitor e self).2)
      <= length (tracked_stocks self))%nat.
Proof.
  assert (Hnan : forall pct, fgeb (fabs pct) (of_Z 2) = true -> is_nan pct = false)
    by (by intros []).
  assert (Hloop : forall symbols b,
    (forall s q pct,
        Alert s q pct ∈ (monitor_loop e symbols b).2 ->
        s ∈ symbols /\ fgeb (fabs pct) (of_Z 2) = true)
    /\ (length (filter (fun ev => is_alert ev = true)
                  (monitor_loop e symbols b).2) <= length symbols)%nat).
  { induction symbols as [|sym rest IH]; intros b.
    { simpl. split; [|lia]. intros s q pct Hin. by apply elem_of_nil in Hin. }
    pose proof (monitor_symbol_alerts e sym b) as Hal.
    pose proof (monitor_symbol_alert_count e sym b) as Hcnt.
    simpl. destruct (monitor_symbol e sym b) as [[[[]|x] b1] evs] eqn:Hstep;
      simpl in Hal, Hcnt.
    - destruct (IH b1) as [Hal' Hcnt'].
      destruct (monitor_loop e rest b1) as [[r b2] evs']; simpl in *.
      split.
      + intros s q pct Hin. apply elem_of_app in Hin as [Hin|Hin].
        * destruct (Hal s q pct Hin) as (-> & Hthr & _).
          split; [by left|done].
        * destruct (Hal' s q pct Hin) as [Hs Hthr]. split; [by right|done].
      + rewrite filter_app, length_app. lia.
    - simpl. split; [|lia].
      intros s q pct Hin. destruct (Hal s q pct Hin) as (-> & Hthr & _).
      split; [by left|done]. }
  unfold price_monitor. case_bool_decide as Hnil.
  { simpl. split; [|lia]. intros s q pct Hin. by apply elem_of_nil in Hin. }
  destruct (Hloop (tracked_stocks self) self) as [Hal Hcnt].
  destruct (monitor_loop e (tracked_stocks self) self) as [[r b] evs].
  simpl in *. split; [|done].
  intros s q pct Hin. destruct (Hal s q pct Hin) as [Hs Hthr].
  split; [done|]. split; [done|by apply Hnan].
Qed.

(** X9.  With a positive cache duration, evaluating a symbol again right
    after an evaluation that got a quote and ended normally changes nothing
    and raises no alert: the quote comes from the cache and the baseline is
    already that price. *)
Theorem repeated_evaluation_is_silent (e : env) (sym : string)
    (self self1 : bot) (q : quote) (m : manager) (calls : list call)
    (evs : list event) :
  0 < cache_duration (stock_manager self) ->
  get_stock_data (providers e) (now e) sym (stock_manager self) = (Some q, m, calls) ->
  monitor_symbol e sym self = (Ok tt, self1, evs) ->
  monitor_symbol e sym self1 = (Ok tt, self1, []).
Proof.
  intros Hdur Hget Hstep.
  assert (Hself1 : self1 = set_last_price (set_stock_manager self m) sym
                             (current_price q)).
  { rewrite (monitor_symbol_fetched e sym self q m calls Hget) in Hstep.
    destruct (_ && _); [destruct (delivers e sym)|]; congruence. }
  assert (Hget1 : get_stock_data (providers e) (now e) sym m = (Some q, m, [])).
  { revert Hget. unfold get_stock_data.
    destruct (_is_cache_valid (stock_manager self) (now e) (cache_key sym))
      eqn:Hv.
    - destruct (cache (stock_manager self) !! cache_key sym) as [en|] eqn:Hen;
        [|done].
      cbn. intros [= <- <- <-]. by rewrite Hv, Hen.
    - assert (Hfresh : forall d,
        _is_cache_valid (_update_cache (stock_manager self) (now e)
                           (cache_key sym) d) (now e) (cache_key sym) = true).
      { intros d. unfold _is_cache_valid. rewrite update_cache_lookup. simpl.
        rewrite Z.sub_diag. by apply Z.ltb_lt. }
      destruct (_get_yfinance_data (providers e) (now e) sym) as [d|];
        [|destruct (_get_alpha_vantage_data (providers e) (now e) sym) as [d|]];
        [| |done];
        intros [= <- <- <-]; by rewrite Hfresh, update_cache_lookup. }
  subst self1.
  rewrite (monitor_symbol_fetched e sym
             (set_last_price (set_stock_manager self m) sym (current_price q))
             q m [] Hget1).
  simpl. rewrite lookup_insert_eq. simpl.
  rewrite no_change_no_alert, andb_false_r.
  destruct self as [ts lps mgr]. unfold set_last_price, set_stock_manager.
  simpl. by rewrite insert_insert_eq.
Qed.

Lemma repeated_evaluation_is_silent_witness :
  monitor_symbol (Fixtures.delivery_works 103) "AAPL"
    (monitor_symbol (Fixtures.delivery_works 103) "AAPL"
       Fixtures.two_tracked).1.2
  = (Ok tt,
     (monitor_symbol (Fixtures.delivery_works 103) "AAPL"
        Fixtures.two_tracked).1.2,
     []).
Proof.
  apply (repeated_evaluation_is_silent (Fixtures.delivery_works 103) "AAPL"
           Fixtures.two_tracked _ Fixtures.fresh_quote
           (_update_cache init 0 (cache_key "AAPL") Fixtures.fresh_quote)
           [Primary "AAPL"]
           [Fetch (Primary "AAPL");
            Alert "AAPL" Fixtures.fresh_quote (of_Z 3)]).
  - reflexivity.
  - vm_compute. reflexivity.
  - vm_compute. reflexivity.
Defined.



End MonitorMore.

(** ** The track and untrack commands *)

Section CommandsMore.

Import PersistenceManager StockBot Commands.

Variable upper : string -> string.

Lemma filter_other_id (x : string) (l : list string) :
  x ∉ l -> filter (fun y => y <> x) l = l.
Proof.
  induction l as [|y l IH]; intros Hnot; [done|].
  apply not_elem_of_cons in Hnot as [Hne Hnot].
  rewrite filter_cons_True by done. by rewrite IH.
Qed.

(** [list.remove] on a list without repetitions takes the element out. *)
Lemma list_remove_nodup (x : string) (l : list string) :
  NoDup l -> x ∈ l -> list_remove x l = Ok (filter (fun y => y <> x) l).
Proof.
  induction 1 as [|y l Hy Hnd IH]; intros Hin; [by apply elem_of_nil in Hin|].
  cbn [list_remove]. case_bool_decide as Hxy.
  - subst y. rewrite filter_cons_False by (intros H; by apply H).
    by rewrite filter_other_id.
  - apply elem_of_cons in Hin as [->|Hin]; [done|].
    rewrite (IH Hin), filter_cons_True by done. reflexivity.
Qed.

Lemma list_remove_in (x : string) (l : list string) :
  x ∈ l -> exists l', list_remove x l = Ok l'.
Proof.
  induction l as [|y l IH]; intros Hin; [by apply elem_of_nil in Hin|].
  simpl. case_bool_decide as Hxy; [by eexists|].
  apply elem_of_cons in Hin as [->|Hin]; [done|].
  destruct (IH Hin) as [l' ->]. by eexists.
Qed.

(** What an addition by [track_command] does. *)
Lemma track_command_added (up : upstream) (now : Z) (symbol : string)
    (self : bot) (fs : disk) (q : quote) :
  (track_command upper up now symbol self fs).1.1 = Added q ->
  (upper symbol ∉ tracked_stocks self)
  /\ tracked_stocks (track_command upper up now symbol self fs).1.2
     = tracked_stocks self ++ [upper symbol]
  /\ (track_command upper up now symbol self fs).2
     = (save_tracked_stocks now (tracked_stocks self ++ [upper symbol]) fs).2.
Proof.
  unfold track_command.
  destruct (get_stock_data up now (upper symbol) (stock_manager self))
    as [[[d|] m] calls]; [|done]. simpl.
  destruct (py_in (upper symbol) (tracked_stocks self)) eqn:Hin; [done|].
  apply py_in_false in Hin.
  by destruct (save_tracked_stocks now (tracked_stocks self ++ [upper symbol]) fs).
Qed.

(** X11.  [track_command] never puts a symbol into the list twice: a list
    without repetitions stays so.  It changes the list and the file only
    when it answers [Added], and then by appending the upper-case symbol,
    which was not in the list; the baselines are not touched. *)
Theorem track_keeps_list_distinct (up : upstream) (now : Z) (symbol : string)
    (self : bot) (fs : disk) :
  (NoDup (tracked_stocks self) ->
   NoDup (tracked_stocks (track_command upper up now symbol self fs).1.2))
  /\ last_prices (track_command upper up now symbol self fs).1.2
     = last_prices self
  /\ (((track_command upper up now symbol self fs).1.1 = CouldNotFind
       \/ (track_command upper up now symbol self fs).1.1 = AlreadyTracked) ->
      tracked_stocks (track_command upper up now symbol self fs).1.2
      = tracked_stocks self
      /\ (track_command upper up now symbol self fs).2 = fs)
  /\ (forall q, (track_command upper up now symbol self fs).1.1 = Added q ->
      (upper symbol ∉ tracked_stocks self)
      /\ tracked_stocks (track_command upper up now symbol self fs).1.2
         = tracked_stocks self ++ [upper symbol]).
Proof.
  unfold track_command.
  destruct (get_stock_data up now (upper symbol) (stock_manager self))
    as [[[q|] m] calls]; [|by repeat split].
  simpl. destruct (py_in (upper symbol) (tracked_stocks self)) eqn:Hin.
  - by repeat split.
  - apply py_in_false in Hin.
    destruct (save_tracked_stocks now (tracked_stocks self ++ [upper symbol]) fs)
      as [ok fs'] eqn:Hsave. simpl.
    split; [|split; [done|split]].
    + intros Hnd. apply NoDup_app. split; [done|]. split.
      * intros x Hx Hx'. apply list_elem_of_singleton in Hx'. by subst.
      * apply NoDup_singleton.
    + by intros [?|?].
    + by intros q' _.
Qed.

(** X12.  Tracking a symbol and then untracking it gives back the list of
    tracked symbols as it was, and with a writable file the list on file is
    then that list too, whatever the file held before. *)
Theorem track_then_untrack (up : upstream) (t1 t2 : Z) (symbol : string)
    (self : bot) (fs : disk) (q : quote) :
  (track_command upper up t1 symbol self fs).1.1 = Added q ->
  let tracked := track_command upper up t1 symbol self fs in
  let untracked := untrack_command upper t2 symbol tracked.1.2 tracked.2 in
  untracked.1.1 = Ok Removed
  /\ tracked_stocks untracked.1.2 = tracked_stocks self
  /\ (writable fs = true ->
      tracked_stocks_file untracked.2
      = Document {| stocks := Some (tracked_stocks self);
                    last_updated := t2;
                    count := length (tracked_stocks self) |}).
Proof.
  intros Hadded tracked untracked.
  destruct (track_command_added up t1 symbol self fs q Hadded)
    as (Hnot & Hlist & Hfs).
  fold tracked in Hlist, Hfs.
  assert (Hw : writable tracked.2 = writable fs).
  { rewrite Hfs. unfold save_tracked_stocks. by destruct (writable fs) eqn:Hwf. }
  subst untracked. unfold untrack_command. rewrite Hlist.
  assert (Hin : py_in (upper symbol) (tracked_stocks self ++ [upper symbol])
                = true).
  { apply py_in_true, elem_of_app. right. by apply list_elem_of_singleton. }
  rewrite Hin. simpl. rewrite (list_remove_snoc _ _ Hnot). simpl.
  unfold save_tracked_stocks. rewrite Hw.
  destruct (writable fs); simpl; by repeat split.
Qed.

(** X13.  When [track_command] adds a symbol, the list on file equals the
    list in memory if the file could be written; if it could not, the file
    is as before while the list in memory has the new symbol: the addition
    is not rolled back. *)
Theorem track_write_failure_not_rolled_back (up : upstream) (now : Z)
    (symbol : string) (self : bot) (fs : disk) (q : quote) :
  (track_command upper up now symbol self fs).1.1 = Added q ->
  (writable fs = true ->
   (load_tracked_stocks now (track_command upper up now symbol self fs).2).1
   = tracked_stocks (track_command upper up now symbol self fs).1.2)
  /\ (writable fs = false ->
      (track_command upper up now symbol self fs).2 = fs
      /\ upper symbol
         ∈ tracked_stocks (track_command upper up now symbol self fs).1.2
      /\ upper symbol ∉ tracked_stocks self).
Proof.
  unfold track_command.
  destruct (get_stock_data up now (upper symbol) (stock_manager self))
    as [[[d|] m] calls]; [|done]. simpl.
  destruct (py_in (upper symbol) (tracked_stocks self)) eqn:Hin; [done|].
  apply py_in_false in Hin. unfold save_tracked_stocks.
  destruct (writable fs) eqn:Hw; simpl; intros _; split; try done.
  intros _. split; [done|]. split; [|done].
  apply elem_of_app. right. by apply list_elem_of_singleton.
Qed.

(** X14.  The removal in [untrack_command] never raises [ValueError].  On
    a list without repetitions that holds the upper-case symbol the command
    answers [Removed] and leaves the other symbols in their order, the
    symbol itself gone; the baselines stay, also the one of the symbol
    removed. *)
Theorem untrack_removes_symbol (now : Z) (symbol : string) (self : bot)
    (fs : disk) :
  (exists r, (untrack_command upper now symbol self fs).1.1 = Ok r)
  /\ last_prices (untrack_command upper now symbol self fs).1.2
     = last_prices self
  /\ (upper symbol ∉ tracked_stocks self ->
      untrack_command upper now symbol self fs = (Ok NotTracked, self, fs))
  /\ (NoDup (tracked_stocks self) -> upper symbol ∈ tracked_stocks self ->
      (untrack_command upper now symbol self fs).1.1 = Ok Removed
      /\ tracked_stocks (untrack_command upper now symbol self fs).1.2
         = filter (fun y => y <> upper symbol) (tracked_stocks self)
      /\ upper symbol
         ∉ tracked_stocks (untrack_command upper now symbol self fs).1.2).
Proof.
  unfold untrack_command.
  destruct (py_in (upper symbol) (tracked_stocks self)) eqn:Hin; simpl.
  - apply py_in_true in Hin. destruct (list_remove_in _ _ Hin) as [l' Hl'].
    rewrite Hl'. simpl.
    destruct (save_tracked_stocks now l' fs) as [ok fs'].
    split; [by eexists|]. split; [done|]. split; [done|].
    intros Hnd _. rewrite (list_remove_nodup _ _ Hnd Hin) in Hl'.
    injection Hl' as <-. simpl. split; [done|]. split; [done|].
    intros Hx. apply list_elem_of_filter in Hx as [Hx _]. by apply Hx.
  - apply py_in_false in Hin.
    split; [by eexists|]. split; [done|]. split; [done|]. done.
Qed.

End CommandsMore.

Section CommandsRuns.

Import PersistenceManager StockBot Commands.

Lemma track_keeps_list_distinct_witness :
  NoDup (tracked_stocks
           (track_command Fixtures.ascii_upper (Fixtures.primary_at 103) 0
              "nvda" Fixtures.two_tracked
              (Fixtures.disk_with ["AAPL"; "MSFT"])).1.2).
Proof.
  refine (proj1 (track_keeps_list_distinct Fixtures.ascii_upper
            (Fixtures.primary_at 103) 0 "nvda"
            Fixtures.two_tracked (Fixtures.disk_with ["AAPL"; "MSFT"])) _).
  by apply (bool_decide_unpack _).
Defined.

Lemma track_then_untrack_witness :
  tracked_stocks
    (untrack_command Fixtures.ascii_upper 1 "nvda"
       (track_command Fixtures.ascii_upper (Fixtures.primary_at 103) 0 "nvda"
          Fixtures.two_tracked (Fixtures.disk_with ["AAPL"])).1.2
       (track_command Fixtures.ascii_upper (Fixtures.primary_at 103) 0 "nvda"
          Fixtures.two_tracked (Fixtures.disk_with ["AAPL"])).2).1.2
  = tracked_stocks Fixtures.two_tracked.
Proof.
  refine (proj1 (proj2 (track_then_untrack Fixtures.ascii_upper
            (Fixtures.primary_at 103) 0 1 "nvda"
            Fixtures.two_tracked (Fixtures.disk_with ["AAPL"])
            (default Fixtures.old_quote
               (_get_yfinance_data (Fixtures.primary_at 103) 0 "NVDA")) _))).
  vm_compute. reflexivity.
Defined.

Lemma track_write_failure_not_rolled_back_witness :
  (track_command Fixtures.ascii_upper (Fixtures.primary_at 103) 0 "nvda"
     MoreFixtures.fresh_bot (MoreFixtures.read_only ["AAPL"])).2
  = MoreFixtures.read_only ["AAPL"]
  /\ Fixtures.ascii_upper "nvda"
     ∈ tracked_stocks
         (track_command Fixtures.ascii_upper (Fixtures.primary_at 103) 0
            "nvda" MoreFixtures.fresh_bot
            (MoreFixtures.read_only ["AAPL"])).1.2
  /\ Fixtures.ascii_upper "nvda" ∉ tracked_stocks MoreFixtures.fresh_bot.
Proof.
  refine (proj2 (track_write_failure_not_rolled_back Fixtures.ascii_upper
            (Fixtures.primary_at 103)
            0 "nvda" MoreFixtures.fresh_bot (MoreFixtures.read_only ["AAPL"])
            (default Fixtures.old_quote
               (_get_yfinance_data (Fixtures.primary_at 103) 0 "NVDA")) _) _).
  - vm_compute. reflexivity.
  - reflexivity.
Defined.

Lemma untrack_removes_symbol_witness :
  tracked_stocks (untrack_command Fixtures.ascii_upper 0 "aapl"
                    Fixtures.two_tracked
                    (Fixtures.disk_with ["AAPL"; "MSFT"])).1.2
  = filter (fun y => y <> Fixtures.ascii_upper "aapl")
      (tracked_stocks Fixtures.two_tracked).
Proof.
  refine (proj1 (proj2 (proj2 (proj2 (proj2 (untrack_removes_symbol
            Fixtures.ascii_upper 0 "aapl"
            Fixtures.two_tracked (Fixtures.disk_with ["AAPL"; "MSFT"]))))
            _ _))).
  - by apply (bool_decide_unpack _).
  - by apply (bool_decide_unpack _).
Defined.

End CommandsRuns.

(** ** The messages of the advice command *)

Section AdviceMore.

Import Commands.

Context {A : Type}.


Lemma remaining_chunks_sizes (fuel : nat) (l : list A) :
  Forall (fun c => (0 < length c <= 2000)%nat) (remaining_chunks fuel l).
Proof.
  revert l. induction fuel as [|fuel IH]; intros l; [constructor|].
  cbn [remaining_chunks]. destruct l as [|x l]; constructor; [|apply IH].
  rewrite length_take. simpl length. lia.
Qed.

(** The first chunk of a remainder of 2000 characters or more is full. *)
Lemma remaining_chunks_first (fuel : nat) (l : list A) :
  (2000 <= length l)%nat -> (length l <= fuel)%nat ->
  exists c rest, remaining_chunks fuel l = c :: rest /\ length c = 2000%nat.
Proof.
  intros Hlong Hfuel. destruct fuel as [|fuel]; [lia|].
  cbn [remaining_chunks]. destruct l as [|x l]; [simpl in Hlong; lia|].
  eexists _, _. split; [done|]. rewrite length_take. lia.
Qed.


(** X16.  A follow-up message is six characters longer than its chunk, so
    it has 7 to 2006 characters; and an advice of 6000 characters or more
    makes the first follow-up message 2006 characters long. *)
Theorem advice_followup_lengths (tick : A) (advice : list A) :
  Forall (fun msg => (7 <= length msg <= 2006)%nat)
         (advice_messages tick advice).2
  /\ ((4000 + 2000 <= length advice)%nat ->
      exists msg rest,
        (advice_messages tick advice).2 = msg :: rest
        /\ length msg = 2006%nat).
Proof.
  unfold advice_messages. cbn [snd].
  destruct (Nat.ltb_spec 4000 (length advice)) as [Hlong|Hshort].
  - split.
    + apply Forall_fmap.
      eapply Forall_impl; [apply remaining_chunks_sizes|].
      intros c Hc. unfold compose. cbn beta in Hc. cbn [app length]. rewrite length_app. cbn [length]. lia.
    + intros Hlen.
      destruct (remaining_chunks_first (length (drop 4000 advice))
                  (drop 4000 advice)) as (c & rest & -> & Hc).
      * rewrite length_drop. lia.
      * done.
      * rewrite fmap_cons. eexists _, _. split; [done|].
        cbn [app length]. rewrite length_app. cbn [length]. lia.
  - split; [constructor|]. intros Hlen. lia.
Qed.

End AdviceMore.

Section AdviceRuns.

Import Commands.

Lemma advice_followup_lengths_witness :
  exists msg rest,
    (advice_messages "`"%char (replicate (4000 + 2000) "a"%char)).2 = msg :: rest
    /\ length msg = 2006%nat.
Proof.
  refine (proj2 (advice_followup_lengths "`"%char
                   (replicate (4000 + 2000) "a"%char)) _).
  rewrite length_replicate. apply le_n.
Defined.

End AdviceRuns.

(** ** The tracked-stocks file and the preferences *)

Section PersistenceMore.

Import PersistenceManager Preferences.

Variable upper : string -> string.

Lemma save_count_consistent (now : Z) (l : list string) (fs : disk) :
  count_consistent fs -> count_consistent (save_tracked_stocks now l fs).2.
Proof.
  intros H. unfold save_tracked_stocks. by destruct (writable fs).
Qed.

Lemma load_count_consistent (now : Z) (fs : disk) :
  count_consistent fs -> count_consistent (load_tracked_stocks now fs).2.
Proof.
  intros H. unfold load_tracked_stocks.
  destruct (tracked_stocks_file fs) eqn:Hf; [|done..].
  by apply save_count_consistent.
Qed.

(** X17.  The count stays in step with the list: when the count that
    [get_tracked_stocks_info] reports is the length of the stored list (or
    there is no readable document), this is still so after loading, adding
    and removing. *)
Theorem count_matches_list (now : Z) (symbol : string) (fs : disk) :
  count_consistent fs ->
  count_consistent (load_tracked_stocks now fs).2
  /\ count_consistent (add_tracked_stock upper now symbol fs).2
  /\ count_consistent (remove_tracked_stock upper now symbol fs).2.
Proof.
  intros H. pose proof (load_count_consistent now fs H) as Hl.
  split; [done|].
  rewrite add_tracked_stock_loaded, remove_tracked_stock_loaded.
  split.
  - destruct (py_in symbol _); [done|by apply save_count_consistent].
  - destruct (py_in (upper symbol) _); [|done].
    destruct (list_remove (upper symbol) _);
      [by apply save_count_consistent|done].
Qed.

(** X18.  Adding a symbol that is already in upper case twice is adding it
    once: on a writable file the symbol is on the stored list after the
    first call, and the second call reports success without writing, so
    the file keeps the list and the time of the first call. *)
Theorem add_twice_is_add_once (now now' : Z) (symbol : string) (fs : disk) :
  writable fs = true ->
  upper symbol = symbol ->
  (add_tracked_stock upper now symbol fs).1 = true
  /\ symbol
     ∈ (load_tracked_stocks now' (add_tracked_stock upper now symbol fs).2).1
  /\ add_tracked_stock upper now' symbol
       (add_tracked_stock upper now symbol fs).2
     = (true, (add_tracked_stock upper now symbol fs).2).
Proof.
  intros Hw Hup.
  assert (Hadd : exists l fs1,
             add_tracked_stock upper now symbol fs = (true, fs1)
             /\ load_tracked_stocks now' fs1 = (l, fs1) /\ symbol ∈ l).
  { rewrite add_tracked_stock_loaded.
    pose proof (load_keeps_writable now fs) as Hlw. rewrite Hw in Hlw.
    destruct (py_in symbol (load_tracked_stocks now fs).1) eqn:Hin.
    - apply py_in_true in Hin.
      exists (load_tracked_stocks now fs).1, (load_tracked_stocks now fs).2.
      split; [done|]. split; [|done].
      rewrite (load_nonempty now symbol fs Hin).
      rewrite (surjective_pairing (load_tracked_stocks now' fs)).
      rewrite (load_list_any_time now now' fs). f_equal.
      apply (load_nonempty now' symbol).
      by rewrite (load_list_any_time now now' fs).
    - rewrite Hup, (save_writable now _ _ Hlw).
      eexists _, _. split; [done|]. split; [done|].
      apply elem_of_app. right. by apply list_elem_of_singleton. }
  destruct Hadd as (l & fs1 & -> & Hl1 & Hin). cbn [fst snd].
  rewrite Hl1. split; [done|]. split; [done|].
  rewrite add_tracked_stock_loaded, Hl1. cbn [fst snd].
  by rewrite (proj2 (py_in_true symbol l) Hin).
Qed.

(** X19.  A file that cannot be written is never changed: loading, adding
    and removing leave it as it is; adding a symbol that is not on the
    list and removing one that is report failure. *)
Theorem read_only_file_is_kept (now : Z) (symbol : string) (fs : disk) :
  writable fs = false ->
  (load_tracked_stocks now fs).2 = fs
  /\ (add_tracked_stock upper now symbol fs).2 = fs
  /\ (remove_tracked_stock upper now symbol fs).2 = fs
  /\ (symbol ∉ (load_tracked_stocks now fs).1 ->
      (add_tracked_stock upper now symbol fs).1 = false)
  /\ (upper symbol ∈ (load_tracked_stocks now fs).1 ->
      (remove_tracked_stock upper now symbol fs).1 = false).
Proof.
  intros Hw.
  pose proof (load_read_only now fs Hw) as Hload.
  split; [done|].
  rewrite add_tracked_stock_loaded, remove_tracked_stock_loaded, Hload.
  repeat split.
  - destruct (py_in symbol _); [done|by rewrite save_read_only].
  - destruct (py_in (upper symbol) _); [|done].
    destruct (list_remove (upper symbol) _); [by rewrite save_read_only|done].
  - intros Hnot. apply py_in_false in Hnot. rewrite Hnot.
    by rewrite save_read_only.
  - intros Hin. apply py_in_true in Hin. rewrite Hin.
    destruct (list_remove (upper symbol) _); [by rewrite save_read_only|done].
Qed.

(** X20.  Preferences survive a save and a load: on a writable file the
    load returns the saved dictionary with ['last_updated'] set to the
    time of the save, so every other key keeps the value the caller gave,
    and a ['last_updated'] of the caller's is overwritten, in the file and
    in the caller's own dictionary. *)
Theorem preferences_round_trip (now now' : Z)
    (preferences : gmap string prefval) (fs : prefs_disk) :
  prefs_writable fs = true ->
  (save_user_preferences now preferences fs).1.1 = true
  /\ (load_user_preferences now'
        (save_user_preferences now preferences fs).1.2).1
     = (save_user_preferences now preferences fs).2
  /\ (save_user_preferences now preferences fs).2 !! "last_updated"
     = Some (PTime now)
  /\ (forall key, key <> "last_updated" ->
        (save_user_preferences now preferences fs).2 !! key
        = preferences !! key).
Proof.
  intros Hw. unfold save_user_preferences. rewrite Hw. cbn.
  repeat split.
  - by rewrite lookup_insert_eq.
  - intros key Hkey. by rewrite lookup_insert_ne.
Qed.

(** X21.  A missing preferences file gives the defaults, stamped: the
    dictionary returned has the four default entries and ['last_updated']
    at the time of the call, whether or not the file could be created;
    when it could, the next load returns the same dictionary, and when it
    could not, the file is still missing. *)
Theorem missing_preferences_give_defaults (now now' : Z) (fs : prefs_disk) :
  user_preferences_file fs = PrefsMissing ->
  (load_user_preferences now fs).1
  = <["last_updated" := PTime now]> default_prefs
  /\ (load_user_preferences now fs).1 !! "alert_threshold"
     = Some (PFloat (of_Z 2))
  /\ (if prefs_writable fs
      then load_user_preferences now' (load_user_preferences now fs).2
           = ((load_user_preferences now fs).1,
              (load_user_preferences now fs).2)
      else (load_user_preferences now fs).2 = fs).
Proof.
  intros Hf.
  assert (Hload : load_user_preferences now fs
                  = (<["last_updated" := PTime now]> default_prefs,
                     if prefs_writable fs
                     then {| user_preferences_file :=
                               PrefsDocument
                                 (<["last_updated" := PTime now]> default_prefs);
                             prefs_writable := true |}
                     else fs)).
  { unfold load_user_preferences, save_user_preferences. rewrite Hf.
    by destruct (prefs_writable fs). }
  rewrite Hload. cbn [fst snd]. split; [done|]. split; [done|].
  by destruct (prefs_writable fs).
Qed.

End PersistenceMore.

Section PersistenceMoreRuns.

Import PersistenceManager Preferences.

Lemma count_matches_list_witness :
  count_consistent (load_tracked_stocks 5 (Fixtures.disk_with ["AAPL"])).2
  /\ count_consistent
       (add_tracked_stock Fixtures.ascii_upper 5 "msft"
          (Fixtures.disk_with ["AAPL"])).2
  /\ count_consistent
       (remove_tracked_stock Fixtures.ascii_upper 5 "msft"
          (Fixtures.disk_with ["AAPL"])).2.
Proof.
  apply (count_matches_list Fixtures.ascii_upper 5 "msft"
           (Fixtures.disk_with ["AAPL"])).
  vm_compute. reflexivity.
Defined.

Lemma add_twice_is_add_once_witness :
  (add_tracked_stock Fixtures.ascii_upper 5 "MSFT"
     (Fixtures.disk_with ["AAPL"])).1 = true
  /\ "MSFT"
     ∈ (load_tracked_stocks 9
          (add_tracked_stock Fixtures.ascii_upper 5 "MSFT"
             (Fixtures.disk_with ["AAPL"])).2).1
  /\ add_tracked_stock Fixtures.ascii_upper 9 "MSFT"
       (add_tracked_stock Fixtures.ascii_upper 5 "MSFT"
          (Fixtures.disk_with ["AAPL"])).2
     = (true,
        (add_tracked_stock Fixtures.ascii_upper 5 "MSFT"
           (Fixtures.disk_with ["AAPL"])).2).
Proof.
  apply (add_twice_is_add_once Fixtures.ascii_upper 5 9 "MSFT"
           (Fixtures.disk_with ["AAPL"]));
    vm_compute; reflexivity.
Defined.

Lemma read_only_file_is_kept_witness :
  (add_tracked_stock Fixtures.ascii_upper 5 "MSFT"
     (MoreFixtures.read_only ["AAPL"])).2
  = MoreFixtures.read_only ["AAPL"]
  /\ (add_tracked_stock Fixtures.ascii_upper 5 "MSFT"
        (MoreFixtures.read_only ["AAPL"])).1 = false.
Proof.
  pose proof (read_only_file_is_kept Fixtures.ascii_upper 5 "MSFT"
                (MoreFixtures.read_only ["AAPL"]) eq_refl)
    as (_ & Hadd & _ & Hfail & _).
  split; [exact Hadd|]. apply Hfail. vm_compute.
  intros H. apply list_elem_of_singleton in H. discriminate H.
Defined.

Lemma preferences_round_trip_witness :
  (load_user_preferences 9
     (save_user_preferences 5 default_prefs (MoreFixtures.no_prefs true)).1.2).1
  = (save_user_preferences 5 default_prefs (MoreFixtures.no_prefs true)).2.
Proof.
  exact (proj1 (proj2 (preferences_round_trip 5 9 default_prefs
                         (MoreFixtures.no_prefs true) eq_refl))).
Defined.

Lemma missing_preferences_give_defaults_witness :
  (load_user_preferences 5 (MoreFixtures.no_prefs false)).1
  = <["last_updated" := PTime 5]> default_prefs.
Proof.
  exact (proj1 (missing_preferences_give_defaults 5 9
                  (MoreFixtures.no_prefs false) eq_refl)).
Defined.

End PersistenceMoreRuns.

(** ** Indicators and the context of the prompt *)

Section Negative.

Import AIAdvisor.

Local Open Scope Q_scope.

Lemma neg_cases (x : float) :
  neg x <-> match x with Fin a => a < 0 | NInf => True | _ => False end.
Proof.
  unfold neg, fltb, zero, of_Z.
  destruct x as [a| | |]; try (split; [discriminate|tauto]).
  - apply Qltb_true.
  - done.
Qed.

Lemma neg_not_pos (x : float) : neg x -> fgtb x zero = false.
Proof.
  intros H. apply neg_cases in H. destruct x as [a| | |]; try done.
  simpl. apply Qltb_false. unfold inject_Z. by apply Qlt_le_weak.
Qed.

Lemma pos_fneg (x : float) : neg x -> pos (fneg x).
Proof.
  intros H. apply neg_cases in H. apply pos_cases.
  destruct x as [a| | |]; try done. simpl. rewrite Qred_correct. lra.
Qed.

(** A strict decrease gives a negative difference. *)
Lemma neg_fsub (a b : float) : fltb b a = true -> neg (fsub b a).
Proof.
  intros H. apply neg_cases.
  destruct a as [a| | |], b as [b| | |]; try done. simpl in *.
  apply Qltb_true in H. rewrite !Qred_correct. lra.
Qed.

Lemma decreasing_diffs (c0 : float) (tl : list float) :
  decreasing (c0 :: tl) = true ->
  Forall neg (zip_with (fun prev cur => fsub cur prev) (c0 :: tl) tl).
Proof.
  revert c0. induction tl as [|c1 tl IH]; intros c0 Hdec; [constructor|].
  simpl in Hdec. apply andb_true_iff in Hdec as [Hlt Hdec].
  change (zip_with (fun prev cur => fsub cur prev) (c0 :: c1 :: tl) (c1 :: tl))
    with (fsub c1 c0
          :: zip_with (fun prev cur => fsub cur prev) (c1 :: tl) tl).
  constructor; [by apply neg_fsub|by apply IH].
Qed.

Lemma where_gain_neg (l : list float) :
  Forall neg l ->
  where_ (fun d => fgtb d zero) zero l = replicate (length l) zero.
Proof.
  induction 1 as [|x l Hx _ IH]; [done|].
  unfold where_ in *. rewrite fmap_cons, IH. by rewrite (neg_not_pos x Hx).
Qed.

Lemma where_loss_neg (l : list float) :
  Forall neg l ->
  Forall pos (fneg <$> where_ (fun d => fltb d zero) zero l).
Proof.
  induction 1 as [|x l Hx _ IH]; [constructor|].
  unfold where_ in *. rewrite !fmap_cons. constructor; [|done].
  unfold neg in Hx. rewrite Hx. by apply pos_fneg.
Qed.

(** No average gain over a positive average loss. *)
Lemma fdiv_zero_pos (l : float) : pos l -> fdiv (Fin 0) l = Fin 0.
Proof.
  intros H. apply pos_cases in H. destruct l as [a| | |]; try done.
  unfold fdiv. destruct (Qeqb a 0) eqn:Ha.
  - apply Qeqb_true in Ha. rewrite Ha in H. by apply Qlt_irrefl in H.
  - reflexivity.
Qed.

(** The difference of two equal prices is neither a gain nor a loss (it is
    zero, or NaN between two infinities). *)
Lemma flat_fsub (a b : float) :
  feqb a b = true ->
  fgtb (fsub b a) zero = false /\ fltb (fsub b a) zero = false.
Proof.
  destruct a as [a| | |], b as [b| | |]; try done. simpl.
  intros H. apply Qeqb_true in H.
  split; apply Qltb_false; rewrite !Qred_correct; unfold inject_Z; lra.
Qed.

Lemma constant_diffs (c0 : float) (tl : list float) :
  constant (c0 :: tl) = true ->
  Forall (fun d => fgtb d zero = false /\ fltb d zero = false)
         (zip_with (fun prev cur => fsub cur prev) (c0 :: tl) tl).
Proof.
  revert c0. induction tl as [|c1 tl IH]; intros c0 Hc; [constructor|].
  simpl in Hc. apply andb_true_iff in Hc as [Heq Hc].
  change (zip_with (fun prev cur => fsub cur prev) (c0 :: c1 :: tl) (c1 :: tl))
    with (fsub c1 c0
          :: zip_with (fun prev cur => fsub cur prev) (c1 :: tl) tl).
  constructor; [by apply flat_fsub|by apply IH].
Qed.

Lemma where_flat (l : list float) :
  Forall (fun d => fgtb d zero = false /\ fltb d zero = false) l ->
  where_ (fun d => fgtb d zero) zero l = replicate (length l) zero
  /\ fneg <$> where_ (fun d => fltb d zero) zero l
     = replicate (length l) (fneg zero).
Proof.
  induction 1 as [|x l [Hg Hl] _ [IHg IHl]]; [done|].
  unfold where_ in *. rewrite !fmap_cons, IHg, IHl, Hg, Hl. done.
Qed.

(** The last RSI of a close series of 14 rows or more, from the last 14
    gains and losses. *)
Lemma rsi_window (close : list float) :
  (14 <= length close)%nat ->
  let delta := diff close in
  let gains := where_ (fun d => fgtb d zero) zero delta in
  let losses := fneg <$> where_ (fun d => fltb d zero) zero delta in
  let rs :=
    zip_with fdiv (rolling 14 mean_agg gains) (rolling 14 mean_agg losses) in
  let rsi :=
    (fun r => fsub (of_Z 100) (fdiv (of_Z 100) (fadd (of_Z 1) r))) <$> rs in
  rsi <> []
  /\ iloc_last rsi
     = Ok (fsub (of_Z 100)
             (fdiv (of_Z 100)
                (fadd (of_Z 1)
                   (fdiv (mean_agg (drop (length close - 14) gains))
                         (mean_agg (drop (length close - 14) losses)))))).
Proof.
  intros Hlen delta gains losses rs rsi.
  assert (Hg : length gains = length close).
  { subst gains delta. by rewrite length_where, length_diff. }
  assert (Hl : length losses = length close).
  { subst losses delta. by rewrite length_fmap, length_where, length_diff. }
  assert (Hrsi_len : length rsi = length close).
  { subst rsi rs. rewrite length_fmap, length_zip_with, !length_rolling. lia. }
  split; [apply nonempty_length; lia|].
  rewrite iloc_last_lookup, Hrsi_len.
  subst rsi rs.
  rewrite list_lookup_fmap, lookup_zip_with.
  rewrite (rolling_last_at 14 mean_agg gains (pred (length close)));
    [|lia|apply nonempty_length; lia|by rewrite Hg].
  rewrite (rolling_last_at 14 mean_agg losses (pred (length close)));
    [|lia|apply nonempty_length; lia|by rewrite Hl].
  rewrite Hg, Hl.
  destruct (Nat.ltb_spec (length close) 14) as [?|_]; [lia|].
  reflexivity.
Qed.

Lemma falling_window_rsi (close : list float) :
  (15 <= length close)%nat -> decreasing close = true ->
  let delta := diff close in
  let gains := where_ (fun d => fgtb d zero) zero delta in
  let losses := fneg <$> where_ (fun d => fltb d zero) zero delta in
  fdiv (mean_agg (drop (length close - 14) gains))
       (mean_agg (drop (length close - 14) losses)) = Fin 0.
Proof.
  intros Hlen Hdec delta gains losses.
  destruct close as [|c0 tl]; [simpl in Hlen; lia|].
  pose proof (decreasing_diffs c0 tl Hdec) as Hds.
  set (ds := zip_with (fun prev cur => fsub cur prev) (c0 :: tl) tl) in *.
  assert (Hn : length ds = length tl).
  { subst ds. rewrite length_zip_with, length_cons. lia. }
  rewrite length_cons in Hlen |- *.
  assert (Hdelta : delta = NaN :: ds) by done.
  assert (Hgains : gains = replicate (S (length ds)) zero).
  { subst gains. rewrite Hdelta. unfold where_. rewrite fmap_cons.
    change (fgtb NaN zero) with false. cbv iota. simpl replicate.
    f_equal. by apply where_gain_neg. }
  assert (Hlosses : losses
                    = fneg zero
                      :: (fneg <$> where_ (fun d => fltb d zero) zero ds)).
  { subst losses. rewrite Hdelta. unfold where_. rewrite !fmap_cons.
    by change (fltb NaN zero) with false. }
  rewrite Hgains, Hlosses, drop_replicate, Hn.
  replace (S (length tl) - (S (length tl) - 14))%nat with 14%nat by lia.
  replace (S (length tl) - 14)%nat with (S (length tl - 14)) by lia.
  rewrite skipn_cons.
  change (mean_agg (replicate 14 zero)) with (Fin 0).
  apply fdiv_zero_pos, pos_mean_agg.
  - apply Forall_drop. by apply where_loss_neg.
  - apply nonempty_length.
    rewrite length_drop, length_fmap, length_where. lia.
Qed.

Lemma flat_window_rsi (close : list float) :
  (14 <= length close)%nat -> constant close = true ->
  let delta := diff close in
  let gains := where_ (fun d => fgtb d zero) zero delta in
  let losses := fneg <$> where_ (fun d => fltb d zero) zero delta in
  fdiv (mean_agg (drop (length close - 14) gains))
       (mean_agg (drop (length close - 14) losses)) = NaN.
Proof.
  intros Hlen Hc delta gains losses.
  destruct close as [|c0 tl]; [simpl in Hlen; lia|].
  pose proof (where_flat _ (constant_diffs c0 tl Hc)) as [Hg Hl].
  set (ds := zip_with (fun prev cur => fsub cur prev) (c0 :: tl) tl) in *.
  assert (Hn : length ds = length tl).
  { subst ds. rewrite length_zip_with, length_cons. lia. }
  rewrite length_cons in Hlen |- *.
  assert (Hdelta : delta = NaN :: ds) by done.
  assert (Hgains : gains = replicate (S (length ds)) zero).
  { subst gains. rewrite Hdelta. unfold where_ in *. rewrite fmap_cons, Hg.
    by change (fgtb NaN zero) with false. }
  assert (Hlosses : losses = replicate (S (length ds)) (fneg zero)).
  { subst losses. rewrite Hdelta. unfold where_ in *. rewrite !fmap_cons, Hl.
    by change (fltb NaN zero) with false. }
  rewrite Hgains, Hlosses, !drop_replicate, Hn.
  replace (S (length tl) - (S (length tl) - 14))%nat with 14%nat by lia.
  reflexivity.
Qed.

End Negative.

Section IndicatorsMore.

Import AIAdvisor.

Variable sqrt : float -> float.

#[local] Arguments fgtb : simpl never.
#[local] Arguments fltb : simpl never.
#[local] Arguments fdiv : simpl never.
#[local] Arguments fmul : simpl never.
#[local] Arguments fsub : simpl never.
#[local] Arguments fadd : simpl never.
#[local] Arguments of_Z : simpl never.
#[local] Arguments of_Q : simpl never.

Ltac series_nonempty :=
  apply nonempty_length;
  repeat first [ rewrite length_rolling | rewrite length_fmap
               | rewrite length_zip_with | rewrite length_pct_change
               | rewrite length_diff | rewrite length_where ];
  lia.

Ltac run_iloc_last :=
  repeat match goal with
  | |- context [iloc_last ?X] =>
      let v := fresh "v" in
      let Hv := fresh "Hv" in
      destruct (iloc_last_some X) as (v & -> & Hv); [series_nonempty|]
  end.

Ltac run_iloc_neg :=
  repeat match goal with
  | |- context [iloc_neg ?k ?X] =>
      let v := fresh "v" in
      destruct (iloc_neg_some k X) as (v & ->);
      [lia | rewrite ?length_fmap; lia |]
  end.

(** X22.  A strictly decreasing close series of 15 bars or more: the
    function completes, the average gain is zero, and the RSI is 0 with
    the oversold signal. *)
Theorem rsi_of_falling_series (data : list bar) :
  (15 <= length data)%nat ->
  decreasing (Close <$> data) = true ->
  _calculate_technical_indicators sqrt data !! "rsi" = Some (VFloat (of_Z 0))
  /\ _calculate_technical_indicators sqrt data !! "rsi_signal"
     = Some (VStr "oversold").
Proof.
  intros Hlen Hdec.
  pose proof (rsi_window (Close <$> data)) as Hrsi.
  pose proof (falling_window_rsi (Close <$> data)) as Hrs.
  rewrite length_fmap in Hrsi, Hrs.
  specialize (Hrsi ltac:(lia)). specialize (Hrs Hlen Hdec).
  cbv zeta in Hrsi, Hrs. rewrite Hrs in Hrsi. destruct Hrsi as [Hne Hrsi].
  change (fsub (of_Z 100) (fdiv (of_Z 100) (fadd (of_Z 1) (Fin 0))))
    with (of_Z 0) in Hrsi.
  unfold _calculate_technical_indicators. cbv zeta.
  rewrite (bool_decide_eq_false_2 _ Hne), Hrsi.
  run_iloc_last. run_iloc_neg.
  rewrite (leb_correct 10 (length data)), (leb_correct 5 (length data)),
    (leb_correct 14 (length data)) by lia.
  change (fgtb (of_Z 0) (of_Z 70)) with false.
  change (fltb (of_Z 0) (of_Z 30)) with true.
  destruct (20 <=? length data)%nat; simpl;
    (split; [by rewrite !lookup_insert_ne, lookup_insert_eq by done
            |by rewrite !lookup_insert_ne, lookup_insert_eq by done]).
Qed.

(** X23.  A close series of 14 bars or more that never moves has no RSI:
    the average gain and the average loss are both zero, their quotient
    is NaN without an exception, the dictionary holds NaN under ['rsi'],
    and the signal is neutral. *)
Theorem rsi_of_flat_series (data : list bar) :
  (14 <= length data)%nat ->
  constant (Close <$> data) = true ->
  _calculate_technical_indicators sqrt data !! "rsi" = Some (VFloat NaN)
  /\ _calculate_technical_indicators sqrt data !! "rsi_signal"
     = Some (VStr "neutral").
Proof.
  intros Hlen Hc.
  pose proof (rsi_window (Close <$> data)) as Hrsi.
  pose proof (flat_window_rsi (Close <$> data)) as Hrs.
  rewrite length_fmap in Hrsi, Hrs.
  specialize (Hrsi Hlen). specialize (Hrs Hlen Hc).
  cbv zeta in Hrsi, Hrs. rewrite Hrs in Hrsi. destruct Hrsi as [Hne Hrsi].
  change (fsub (of_Z 100) (fdiv (of_Z 100) (fadd (of_Z 1) NaN)))
    with NaN in Hrsi.
  unfold _calculate_technical_indicators. cbv zeta.
  rewrite (bool_decide_eq_false_2 _ Hne), Hrsi.
  run_iloc_last. run_iloc_neg.
  rewrite (leb_correct 10 (length data)), (leb_correct 5 (length data)),
    (leb_correct 14 (length data)) by lia.
  change (fgtb NaN (of_Z 70)) with false.
  change (fltb NaN (of_Z 30)) with false.
  destruct (20 <=? length data)%nat; simpl;
    (split; [by rewrite !lookup_insert_ne, lookup_insert_eq by done
            |by rewrite !lookup_insert_ne, lookup_insert_eq by done]).
Qed.

(** The keys of the dictionary of a frame that is not empty. *)
Lemma indicators_keys (data : list bar) (key : string) :
  data <> [] ->
  is_Some (_calculate_technical_indicators sqrt data !! key)
  <-> key ∈ keys_of_length (length data).
Proof.
  intros Hne.
  assert (Hpos : (0 < length data)%nat) by (destruct data; simpl; [done|lia]).
  unfold _calculate_technical_indicators, keys_of_length. cbv zeta.
  rewrite bool_decide_eq_false_2 by series_nonempty.
  run_iloc_last.
  repeat match goal with
    | |- context [(?k <=? length data)%nat] =>
        destruct (Nat.leb_spec k (length data)); try lia
    end;
    run_iloc_neg;
    simpl;
    repeat match goal with
    | |- context [if ?c then <[_ := _]> _ else _] => destruct c
    end;
    (split; intros Hk;
     [ repeat (apply lookup_insert_is_Some' in Hk as [<-|Hk]);
       [ idtac ..
       | rewrite lookup_empty in Hk; by apply is_Some_None in Hk ];
       repeat first [ apply list_elem_of_here | apply list_elem_of_further ]
     | repeat (apply elem_of_cons in Hk as [->|Hk]);
       [ idtac .. | by apply elem_of_nil in Hk ];
       repeat first [ apply lookup_insert_is_Some'; left; reflexivity
                    | apply lookup_insert_is_Some'; right ] ]).
Qed.

Lemma keys_of_length_indicator_keys (n : nat) (key : string) :
  key ∈ keys_of_length n -> key ∈ indicator_keys.
Proof.
  unfold keys_of_length, indicator_keys.
  destruct (5 <=? n)%nat, (10 <=? n)%nat, (14 <=? n)%nat, (20 <=? n)%nat;
    cbn [app];
    (intros Hk;
     repeat (apply elem_of_cons in Hk as [->|Hk]);
     [ idtac .. | by apply elem_of_nil in Hk ];
     repeat first [ apply list_elem_of_here | apply list_elem_of_further ]).
Qed.

Lemma indicators_empty_frame :
  _calculate_technical_indicators sqrt [] = ∅.
Proof. reflexivity. Qed.

Lemma indicators_within_keys (data : list bar) (key : string) :
  is_Some (_calculate_technical_indicators sqrt data !! key) ->
  key ∈ indicator_keys.
Proof.
  destruct (decide (data = [])) as [->|Hne].
  - rewrite indicators_empty_frame, lookup_empty. by intros [? ?].
  - intros H. apply indicators_keys in H; [|done].
    by apply keys_of_length_indicator_keys in H.
Qed.

(** X24.  The keys of the indicator dictionary depend on the number of
    rows alone: an empty frame gives the empty dictionary (the handler's),
    and a frame of [n] rows gives the five keys of the volume, the
    volatility and the two levels, and those of each indicator whose
    window fits in [n] rows; no other key is ever written. *)
Theorem indicator_keys_by_length (data : list bar) :
  (data = [] -> _calculate_technical_indicators sqrt data = ∅)
  /\ (data <> [] ->
      forall key,
        is_Some (_calculate_technical_indicators sqrt data !! key)
        <-> key ∈ keys_of_length (length data))
  /\ (forall key,
        is_Some (_calculate_technical_indicators sqrt data !! key) ->
        key ∈ indicator_keys).
Proof.
  split; [by intros ->|]. split.
  - intros Hne key. by apply indicators_keys.
  - apply indicators_within_keys.
Qed.

(** X25.  The five-day momentum compares the last close with the close
    four rows before it (the fifth row from the end), in percent of that
    close; a zero close there gives an infinity or NaN, not an exception. *)
Theorem momentum_looks_back_four_rows (pre : list bar) (b5 b4 b3 b2 b1 : bar) :
  _calculate_technical_indicators sqrt (pre ++ [b5; b4; b3; b2; b1])
    !! "momentum_5d"
  = Some (VFloat (fmul (fdiv (fsub (Close b1) (Close b5)) (Close b5))
                       (of_Z 100))).
Proof.
  set (data := pre ++ [b5; b4; b3; b2; b1]).
  assert (Hlen : length data = (length pre + 5)%nat)
    by (subst data; by rewrite length_app).
  assert (Hlast : iloc_last (Close <$> data) = Ok (Close b1)).
  { subst data. rewrite fmap_app.
    change (Close <$> [b5; b4; b3; b2; b1])
      with ([Close b5; Close b4; Close b3; Close b2] ++ [Close b1]).
    rewrite app_assoc. apply iloc_last_snoc. }
  assert (Hneg : iloc_neg 5 (Close <$> data) = Ok (Close b5)).
  { unfold iloc_neg. rewrite length_fmap, Hlen.
    destruct (Nat.ltb_spec (length pre + 5) 5) as [?|_]; [lia|].
    replace (length pre + 5 - 5)%nat with (length (Close <$> pre))
      by (rewrite length_fmap; lia).
    subst data. rewrite fmap_app.
    change (Close <$> [b5; b4; b3; b2; b1])
      with (Close b5 :: (Close <$> [b4; b3; b2; b1])).
    by rewrite list_lookup_middle. }
  unfold _calculate_technical_indicators. cbv zeta.
  rewrite Hlast, Hneg.
  rewrite bool_decide_eq_false_2 by series_nonempty.
  run_iloc_last.
  rewrite (leb_correct 5 (length data)) by lia.
  repeat match goal with
    | |- context [(?k <=? length data)%nat] =>
        destruct (Nat.leb_spec k (length data)); try lia
    end;
    simpl;
    repeat match goal with
    | |- context [if ?c then <[_ := _]> _ else _] => destruct c
    end;
    by rewrite !lookup_insert_ne, lookup_insert_eq by done.
Qed.

End IndicatorsMore.

Section ContextMore.

Import AIAdvisor Context.

Variable sqrt : float -> float.



End ContextMore.

Section IndicatorMoreRuns.

Import AIAdvisor.

Lemma rsi_of_falling_series_witness :
  _calculate_technical_indicators Fixtures.no_sqrt (MoreFixtures.falling 15)
    !! "rsi" = Some (VFloat (of_Z 0))
  /\ _calculate_technical_indicators Fixtures.no_sqrt (MoreFixtures.falling 15)
       !! "rsi_signal" = Some (VStr "oversold").
Proof.
  apply (rsi_of_falling_series Fixtures.no_sqrt (MoreFixtures.falling 15)).
  - vm_compute. lia.
  - vm_compute. reflexivity.
Defined.

Lemma rsi_of_flat_series_witness :
  _calculate_technical_indicators Fixtures.no_sqrt (MoreFixtures.level 14)
    !! "rsi" = Some (VFloat NaN)
  /\ _calculate_technical_indicators Fixtures.no_sqrt (MoreFixtures.level 14)
       !! "rsi_signal" = Some (VStr "neutral").
Proof.
  apply (rsi_of_flat_series Fixtures.no_sqrt (MoreFixtures.level 14)).
  - vm_compute. lia.
  - vm_compute. reflexivity.
Defined.

End IndicatorMoreRuns.
